(** * py2dmat.solver.leed: the LEED solver adapter

    A shallow embedding of [src/py2dmat/solver/leed.py]: the text
    operations the adapter relies on (Python's [str.replace], [str.split],
    [in], [str.zfill], [format]), the part of the file system it touches,
    and the methods [Solver.__init__],
    [Solver.prepare], [Solver.run], [Solver.get_results] and
    [Solver.Input._pre_dir], [_write_fit_file]. *)

From Stdlib Require Import ZArith NArith List Ascii String Bool Lia.
From stdpp Require Import gmap strings list fin_maps.

Local Open Scope N_scope.

(** ** Python text

    A Python [str] is modelled as the list of its characters; the
    characters are those with a code point below 256. *)

Abbreviation str := (list ascii).

Definition lit (s : string) : str := list_ascii_of_string s.

Module PyStr.

(** [s.startswith(pat)] *)
Fixpoint startswith (pat s : str) : bool :=
  match pat, s with
  | [], _ => true
  | _ :: _, [] => false
  | p :: pat', c :: s' => if Ascii.eqb p c then startswith pat' s' else false
  end.

(** [a == b] *)
Fixpoint eqb (a b : str) : bool :=
  match a, b with
  | [], [] => true
  | x :: a', y :: b' => Ascii.eqb x y && eqb a' b'
  | _, _ => false
  end.

(** [pat in s] *)
Fixpoint contains (pat s : str) : bool :=
  startswith pat s ||
  match s with
  | [] => false
  | _ :: s' => contains pat s'
  end.

(** The scan of [s.replace(old, new)] for a non-empty [old]: [skip] counts
    the characters of a match that are still to be passed over. *)
Fixpoint replace_from (old new : str) (skip : nat) (s : str) : str :=
  match s with
  | [] => []
  | c :: s' =>
      match skip with
      | S k => replace_from old new k s'
      | O =>
          if startswith old s
          then new ++ replace_from old new (Nat.pred (length old)) s'
          else c :: replace_from old new O s'
      end
  end.

(** [s.replace(old, new)]; an empty [old] matches before every character
    and at the end. *)
Definition replace (old new s : str) : str :=
  match old with
  | [] => new ++ flat_map (fun c => c :: new) s
  | _ :: _ => replace_from old new O s
  end.

(** [s.rjust(width, fill)] *)
Definition rjust (width : nat) (fill : ascii) (s : str) : str :=
  repeat fill (width - length s)%nat ++ s.

(** [s.zfill(width)] on a string without sign *)
Definition zfill (width : nat) (s : str) : str := rjust width "0"%char s.

(** The scan of [s.split(sep)] for a non-empty [sep] (leed.py passes
    ["="]); [cur] holds the current field, reversed. *)
Fixpoint split_from (sep : str) (skip : nat) (cur s : str) : list str :=
  match s with
  | [] => [rev cur]
  | c :: s' =>
      match skip with
      | S k => split_from sep k cur s'
      | O =>
          if startswith sep s
          then rev cur :: split_from sep (Nat.pred (length sep)) [] s'
          else split_from sep O (c :: cur) s'
      end
  end.

Definition split (sep s : str) : list str := split_from sep O [] s.

Definition LF : ascii := ascii_of_N 10.
Definition CR : ascii := ascii_of_N 13.

(** What a file opened in text mode hands to the reader: ["\r\n"] and a
    lone ["\r"] become ["\n"] (universal newlines). *)
Fixpoint translate_newlines (s : str) : str :=
  match s with
  | [] => []
  | c :: s' =>
      if Ascii.eqb c CR
      then match s' with
           | d :: s'' =>
               if Ascii.eqb d LF
               then LF :: translate_newlines s''
               else LF :: translate_newlines s'
           | [] => [LF]
           end
      else c :: translate_newlines s'
  end.

(** [fr.readlines()] on translated text: every line keeps its ["\n"]. *)
Fixpoint lines_from (cur s : str) : list str :=
  match s with
  | [] => match cur with [] => [] | _ :: _ => [rev cur] end
  | c :: s' =>
      if Ascii.eqb c LF
      then rev (c :: cur) :: lines_from [] s'
      else lines_from (c :: cur) s'
  end.

Definition readlines (s : str) : list str := lines_from [] s.

(** ASCII white space, which [float] strips once the text is narrowed
    (see [PyFloat.narrow_space]). *)
Definition is_space (c : ascii) : bool :=
  let n := N_of_ascii c in ((9 <=? n) && (n <=? 13)) || (n =? 32).

Fixpoint lstrip (s : str) : str :=
  match s with
  | c :: s' => if is_space c then lstrip s' else s
  | [] => []
  end.

Definition strip (s : str) : str := rev (lstrip (rev (lstrip s))).

(** ASCII lower case of one character. *)
Definition lower (c : ascii) : ascii :=
  let n := N_of_ascii c in
  if (65 <=? n) && (n <=? 90) then ascii_of_N (n + 32) else c.

End PyStr.

(** ** Python integers in decimal *)

Module PyInt.

Definition digit_char (d : N) : ascii := ascii_of_N (48 + d).

Definition digit_value (c : ascii) : N := N_of_ascii c - 48.

Definition is_digit (c : ascii) : bool :=
  (48 <=? N_of_ascii c) && (N_of_ascii c <=? 57).

(** Decimal digits of [n], most significant first, pushed in front of
    [acc]; [fuel] bounds the number of digits. *)
Fixpoint digits_fuel (fuel : nat) (n : N) (acc : str) : str :=
  match fuel with
  | O => acc
  | S f =>
      let acc' := digit_char (n mod 10) :: acc in
      if n <? 10 then acc' else digits_fuel f (n / 10) acc'
  end.

(** [str(n)] for [n >= 0] *)
Definition str_of_N (n : N) : str :=
  digits_fuel (S (N.to_nat (N.size n))) n [].

(** The number a string of digits denotes. *)
Definition value_of (s : str) : N :=
  fold_left (fun a c => 10 * a + digit_value c) s 0.

(** [str(z)] *)
Definition str_of_Z (z : Z) : str :=
  if (z <? 0)%Z then "-"%char :: str_of_N (Z.abs_N z) else str_of_N (Z.abs_N z).

(** ["{:08d}".format(z)]: the sign, when there is one, counts in the
    width and the zeros go between the sign and the digits. *)
Definition format_08d (z : Z) : str :=
  if (z <? 0)%Z
  then "-"%char :: PyStr.zfill 7 (str_of_N (Z.abs_N z))
  else PyStr.zfill 8 (str_of_N (Z.abs_N z)).

End PyInt.

(** ** Workspace names ([Solver.Input._pre_dir]) *)

(** The value of [folder_name] in [_pre_dir]:
    ["Log{:08d}_{:08d}".format(Log_number, iset)]. *)
Definition folder_name (Log_number iset : Z) : str :=
  lit "Log" ++ PyInt.format_08d Log_number ++ lit "_" ++ PyInt.format_08d iset.

(** ** Python floats

    A finite float is kept as the exact rational [(-1)^neg * num / den] it
    stands for (every binary64 value is such a rational); the sign is kept
    apart because [-0.0] prints its sign.  Rounding a parsed decimal to
    the nearest binary64 is not modelled, overflow to infinity is. *)

Module PyFloat.

Inductive pyfloat : Type :=
  | FFin (neg : bool) (num : N) (den : positive)
  | FInf (neg : bool)
  | FNan.

Definition inf : pyfloat := FInf false.

Definition is_finite (v : pyfloat) : bool :=
  match v with FFin _ _ _ => true | _ => false end.

(** [num / den] rounded to an integer, ties to even. *)
Definition round_half_even (num : N) (den : positive) : N :=
  let q := num / Npos den in
  let r := num mod Npos den in
  if (Npos den <? 2 * r) || ((2 * r =? Npos den) && N.odd q) then q + 1 else q.

Definition sign_chars (neg : bool) : str := if neg then ["-"%char] else [].

(** The digits of ["{:.4f}"] for [num / den >= 0]. *)
Definition fixed4 (num : N) (den : positive) : str :=
  let d := round_half_even (num * 10000) den in
  PyInt.str_of_N (d / 10000) ++
  "."%char :: PyStr.zfill 4 (PyInt.str_of_N (d mod 10000)).

(** ["{:7.4f}".format(v)] *)
Definition format_7_4f (v : pyfloat) : str :=
  PyStr.rjust 7 " "%char
    match v with
    | FFin neg num den => sign_chars neg ++ fixed4 num den
    | FInf neg => sign_chars neg ++ lit "inf"
    | FNan => lit "nan"
    end.

(** *** [float(s)] *)

(** The rest of a [digitpart] after a digit: digits, each optionally
    preceded by one underscore.  Returns the number read so far, how many
    digits were added, and what is left. *)
Fixpoint digitpart_rest (s : str) (acc : N) (cnt : nat) : N * nat * str :=
  match s with
  | [] => (acc, cnt, [])
  | c :: s' =>
      if PyInt.is_digit c
      then digitpart_rest s' (10 * acc + PyInt.digit_value c) (S cnt)
      else if Ascii.eqb c "_"%char
      then match s' with
           | d :: s'' =>
               if PyInt.is_digit d
               then digitpart_rest s'' (10 * acc + PyInt.digit_value d) (S cnt)
               else (acc, cnt, s)
           | [] => (acc, cnt, s)
           end
      else (acc, cnt, s)
  end.

Definition digitpart (s : str) (acc : N) : option (N * nat * str) :=
  match s with
  | c :: s' =>
      if PyInt.is_digit c
      then Some (digitpart_rest s' (10 * acc + PyInt.digit_value c) 1%nat)
      else None
  | [] => None
  end.

(** An optional sign. *)
Definition take_sign (s : str) : bool * str :=
  match s with
  | c :: s' =>
      if Ascii.eqb c "-"%char then (true, s')
      else if Ascii.eqb c "+"%char then (false, s')
      else (false, s)
  | [] => (false, [])
  end.

(** After the mantissa [m] with [k] digits behind the point: the end of
    the text, or an exponent.  Gives [m] and the power of ten. *)
Definition after_mantissa (m : N) (k : nat) (s : str) : option (N * Z) :=
  match s with
  | [] => Some (m, (- Z.of_nat k)%Z)
  | c :: s' =>
      if Ascii.eqb (PyStr.lower c) "e"%char
      then let '(eneg, s'') := take_sign s' in
           match digitpart s'' 0 with
           | Some (x, _, []) =>
               Some (m, ((if eneg then - Z.of_N x else Z.of_N x) - Z.of_nat k)%Z)
           | _ => None
           end
      else None
  end.

(** [floatnumber] of the grammar of [float]:
    [[digitpart] "." digitpart | digitpart ["."]], then an optional
    exponent. *)
Definition floatnumber (s : str) : option (N * Z) :=
  match digitpart s 0 with
  | Some (m, _, r) =>
      match r with
      | c :: r' =>
          if Ascii.eqb c "."%char
          then match digitpart r' m with
               | Some (m', k, r'') => after_mantissa m' k r''
               | None => after_mantissa m 0 r'
               end
          else after_mantissa m 0 r
      | [] => after_mantissa m 0 r
      end
  | None =>
      match s with
      | c :: r' =>
          if Ascii.eqb c "."%char
          then match digitpart r' 0 with
               | Some (m', k, r'') => after_mantissa m' k r''
               | None => None
               end
          else None
      | [] => None
      end
  end.

(** Decimals at or above [2^1024 - 2^970] round to infinity. *)
Definition overflow_threshold : N := 2 ^ 1024 - 2 ^ 970.

Definition of_decimal (neg : bool) (m : N) (e : Z) : pyfloat :=
  let num := if (0 <=? e)%Z then m * 10 ^ Z.to_N e else m in
  let den := if (0 <=? e)%Z then 1%positive else (10 ^ Z.to_pos (- e))%positive in
  if overflow_threshold * Npos den <=? num then FInf neg else FFin neg num den.

(** Before it parses, [float] turns every white-space character outside
    ASCII into a plain space; below 256 these are the next-line control
    (133) and the no-break space (160).  The ASCII separators 28 to 31 stay
    as they are, and are no part of a number. *)
Definition narrow_space (c : ascii) : ascii :=
  let n := N_of_ascii c in
  if (n =? 133) || (n =? 160) then " "%char else c.

(** [float(s)]; [None] stands for [ValueError]. *)
Definition of_str (s : str) : option pyfloat :=
  let '(neg, body) := take_sign (PyStr.strip (map narrow_space s)) in
  let low := map PyStr.lower body in
  if PyStr.eqb low (lit "inf") then Some (FInf neg)
  else if PyStr.eqb low (lit "infinity") then Some (FInf neg)
  else if PyStr.eqb low (lit "nan") then Some FNan
  else match floatnumber body with
       | Some (m, e) => Some (of_decimal neg m e)
       | None => None
       end.

End PyFloat.

Export PyFloat.

(** ** Placeholder tokens and substitution ([Solver.Input._write_fit_file]) *)

(** ["opt{}".format(str(idx).zfill(4))] *)
Definition token (idx : nat) : str :=
  lit "opt" ++ PyStr.zfill 4 (PyInt.str_of_N (N.of_nat idx)).

(** The loop [for idx, variable in enumerate(variables)], started at
    [idx]: each round replaces one token in [contents]. *)
Fixpoint substitute (idx : nat) (variables : list pyfloat) (contents : str) : str :=
  match variables with
  | [] => contents
  | variable :: rest =>
      let svariable := format_7_4f variable in
      substitute (S idx) rest (PyStr.replace (token idx) svariable contents)
  end.

(** ** Exceptions and the state of the process *)

Inductive exn : Type :=
  | FileNotFoundError
  | UnboundLocalError
  | IndexError
  | ValueError
  | AttributeError
  | DistutilsFileError
  | CalledProcessError
  | InputError (msg : str).

Inductive result (A : Type) : Type :=
  | Ok (a : A)
  | Raise (e : exn).
Arguments Ok {A} a.
Arguments Raise {A} e.

(** Values a configuration file can give to a key. *)
Inductive value : Type :=
  | VBool (b : bool)
  | VInt (z : Z)
  | VStr (s : str).

(** Python's [==] on such values: [bool] is a subtype of [int], a string
    equals only a string. *)
Definition value_eq (a b : value) : bool :=
  match a, b with
  | VBool x, VBool y => Bool.eqb x y
  | VBool x, VInt z | VInt z, VBool x => (z =? (if x then 1 else 0))%Z
  | VInt x, VInt y => (x =? y)%Z
  | VStr x, VStr y => PyStr.eqb x y
  | _, _ => false
  end.

(** The file system as the adapter sees it: directories, listed under
    their path, holding regular files, named inside their directory.  A
    sub-directory of [d] is a directory listed under a path that begins
    with [d] and a slash.  Links and permissions are not modelled, and a
    path is not normalised. *)
Record world : Type := mkWorld {
  dirs : gmap str (gmap str str);
  cwd : str;                      (* [os.getcwd()] *)
  work_dir : option str;          (* [self.work_dir], unset before [prepare] *)
  stdout : list str;              (* what [print] wrote, oldest first *)
  calls : list (str * str)        (* commands started and their directory *)
}.

Definition set_dirs (d : gmap str (gmap str str)) (w : world) : world :=
  mkWorld d (cwd w) (work_dir w) (stdout w) (calls w).
Definition set_cwd (c : str) (w : world) : world :=
  mkWorld (dirs w) c (work_dir w) (stdout w) (calls w).
Definition set_work_dir (d : str) (w : world) : world :=
  mkWorld (dirs w) (cwd w) (Some d) (stdout w) (calls w).
Definition add_stdout (s : str) (w : world) : world :=
  mkWorld (dirs w) (cwd w) (work_dir w) (stdout w ++ [s]) (calls w).
Definition add_call (c : str * str) (w : world) : world :=
  mkWorld (dirs w) (cwd w) (work_dir w) (stdout w) (calls w ++ [c]).

(** Computations that read and change the world and may raise. *)
Definition M (A : Type) : Type := world -> world * result A.

#[global] Instance M_ret : MRet M := fun A a w => (w, Ok a).
#[global] Instance M_bind : MBind M := fun A B f m w =>
  match m w with
  | (w', Ok a) => f a w'
  | (w', Raise e) => (w', Raise e)
  end.

Definition raise {A} (e : exn) : M A := fun w => (w, Raise e).
Definition lift {A} (r : result A) : M A := fun w => (w, r).
Definition get {A} (f : world -> A) : M A := fun w => (w, Ok (f w)).
Definition modify (f : world -> world) : M unit := fun w => (f w, Ok tt).

(** [try: body except E: handler], for the exceptions [catches] selects. *)
Definition try_except {A} (body : M A) (catches : exn -> bool) (handler : M A) : M A :=
  fun w =>
    match body w with
    | (w', Ok a) => (w', Ok a)
    | (w', Raise e) => if catches e then handler w' else (w', Raise e)
    end.

(** *** The [os], [shutil] and [distutils] calls of the adapter *)

Definition has_sep_end (a : str) : bool :=
  match rev a with c :: _ => Ascii.eqb c "/"%char | [] => false end.

(** [os.path.join(a, b)] *)
Definition os_path_join (a b : str) : str :=
  if PyStr.startswith (lit "/") b then b
  else if has_sep_end a then a ++ b
  else match a with [] => b | _ :: _ => a ++ lit "/" ++ b end.

(** The directory a path names for the process: a relative path is taken
    from the working directory, the empty path is the working directory. *)
Definition resolve (w : world) (p : str) : str :=
  match p with [] => cwd w | _ :: _ => os_path_join (cwd w) p end.

Definition lookup_file (w : world) (dir name : str) : option str :=
  dirs w !! resolve w dir ≫= fun files => files !! name.

(** [os.path.exists(os.path.join(dir, name))] for a file name *)
Definition os_path_exists (dir name : str) : M bool :=
  get (fun w => bool_decide (is_Some (lookup_file w dir name))).

(** [open(os.path.join(dir, name), "r")] followed by [read()] *)
Definition open_read (dir name : str) : M str :=
  fun w =>
    match lookup_file w dir name with
    | Some contents => (w, Ok (PyStr.translate_newlines contents))
    | None => (w, Raise FileNotFoundError)
    end.

(** [open(os.path.join(dir, name), "w")] followed by [write(contents)];
    the line separator of the platform is ["\n"]. *)
Definition open_write (dir name contents : str) : M unit :=
  fun w =>
    match dirs w !! resolve w dir with
    | Some files =>
        (set_dirs (<[resolve w dir := <[name := contents]> files]> (dirs w)) w, Ok tt)
    | None => (w, Raise FileNotFoundError)
    end.

(** [os.makedirs(dir, exist_ok=True)] *)
Definition os_makedirs (dir : str) : M unit :=
  modify (fun w =>
    set_dirs
      match dirs w !! resolve w dir with
      | Some _ => dirs w
      | None => <[resolve w dir := ∅]> (dirs w)
      end w).

(** [distutils.dir_util.copy_tree(src, dst)]: every file of [src] is
    written into [dst], which is created when it is missing; other files
    of [dst] stay.  The model covers a [src] that holds regular files and
    a [dst] whose parent exists: it neither descends into sub-directories
    of [src] nor makes the directories above [dst]. *)
Definition copy_tree (src dst : str) : M unit :=
  fun w =>
    match dirs w !! resolve w src with
    | Some files =>
        let old := default ∅ (dirs w !! resolve w dst) in
        (set_dirs (<[resolve w dst := files ∪ old]> (dirs w)) w, Ok tt)
    | None => (w, Raise DistutilsFileError)
    end.

(** [os.chdir(dir)] *)
Definition os_chdir (dir : str) : M unit :=
  fun w =>
    match dirs w !! resolve w dir with
    | Some _ => (set_cwd (resolve w dir) w, Ok tt)
    | None => (w, Raise FileNotFoundError)
    end.

(** [d] is the directory [top] or lies beneath it. *)
Definition beneath (top d : str) : bool :=
  PyStr.eqb d top
  || PyStr.startswith (if has_sep_end top then top else top ++ lit "/") d.

(** The directories that are left once [top] is removed with all that
    lies beneath it. *)
Definition without_tree (top : str) (ds : gmap str (gmap str str)) :
    gmap str (gmap str str) :=
  filter (fun entry => beneath top entry.1 = false) ds.

(** [shutil.rmtree(dir)]: the directory goes with its files and its
    sub-directories. *)
Definition shutil_rmtree (dir : str) : M unit :=
  fun w =>
    match dirs w !! resolve w dir with
    | Some _ => (set_dirs (without_tree (resolve w dir) (dirs w)) w, Ok tt)
    | None => (w, Raise FileNotFoundError)
    end.

Definition print (s : str) : M unit := modify (add_stdout s).

(** [self.work_dir] *)
Definition self_work_dir : M str :=
  fun w =>
    match work_dir w with
    | Some d => (w, Ok d)
    | None => (w, Raise AttributeError)
    end.

(** ** The adapter *)

(** The attributes [Solver.__init__] sets and never changes again. *)
Record solver : Type := mkSolver {
  path_to_first_solver : str;
  path_to_second_solver : str;
  path_to_base_dir : str;
  root_dir : str;
  proc_dir : str;
  remove_work_dir : value  (* [info_s["post"].get("remove_work_dir", False)] *)
}.

(** [py2dmat.Message] *)
Record message : Type := mkMessage {
  x : list pyfloat;
  step : Z;
  set : Z
}.

(** *** [Solver.__init__], lines 91 to 98: the reference files *)

Definition files : list str :=
  [lit "exp.d"; lit "rfac.d"; lit "tleed4.i"; lit "tleed5.i"].

(** [f"ERROR: input file ({file}) is not found in ({self.path_to_base_dir})"] *)
Definition missing_file_msg (file base : str) : str :=
  lit "ERROR: input file (" ++ file ++ lit ") is not found in (" ++ base ++ lit ")".

(** The loop [for file in files] over the files still to check. *)
Fixpoint check_files (base : str) (todo : list str) : M unit :=
  match todo with
  | [] => mret tt
  | file :: rest =>
      found ← os_path_exists base file;
      if negb found
      then raise (InputError (missing_file_msg file base))
      else check_files base rest
  end.

Definition init_check_files (self : solver) : M unit :=
  check_files (path_to_base_dir self) files.

(** *** [Solver.Input] *)

Definition _pre_dir (Log_number iset : Z) : M str :=
  let name := folder_name Log_number iset in
  os_makedirs name;;
  mret name.

Definition subdir (msg : message) : M str :=
  _pre_dir (step msg) (set msg).

Definition _write_fit_file (variables : list pyfloat) : M unit :=
  contents ← open_read [] (lit "tleed5.i");
  open_write [] (lit "tleed5.i") (substitute 0 variables contents).

Definition input_prepare (msg : message) : M unit :=
  _write_fit_file (x msg).

(** *** [Solver.prepare] *)

Definition prepare (self : solver) (msg : message) : M unit :=
  sub ← subdir msg;
  let wd := os_path_join (proc_dir self) sub in
  modify (set_work_dir wd);;
  copy_tree (os_path_join (root_dir self) (path_to_base_dir self)) wd;;
  old ← get cwd;
  os_chdir wd;;
  input_prepare msg;;
  os_chdir old.

(** *** [Solver.run] *)

(** An external executable: what it does to the files of the directory it
    runs in, and its exit status. *)
Definition program : Type := gmap str str -> gmap str str * Z.

(** Start [command] in directory [wd] and wait for it. *)
Definition subprocess_run (host : str -> option program) (command wd : str) : M Z :=
  fun w =>
    match dirs w !! resolve w wd, host command with
    | Some files, Some p =>
        let '(files', status) := p files in
        (add_call (command, resolve w wd)
           (set_dirs (<[resolve w wd := files']> (dirs w)) w),
         Ok status)
    | _, _ => (w, Raise FileNotFoundError)
    end.

(** Modelled from the spec: [SolverBase._run_by_subprocess], which is not
    part of [leed.py].  The command is executed synchronously inside the
    workspace directory and a non-zero exit status is a
    [CalledProcessError]; [host] gives the executable behind a path,
    if there is one. *)
Definition _run_by_subprocess (host : str -> option program) (command : str) : M unit :=
  wd ← self_work_dir;
  status ← subprocess_run host command wd;
  if (status =? 0)%Z then mret tt else raise CalledProcessError.

Definition is_CalledProcessError (e : exn) : bool :=
  match e with CalledProcessError => true | _ => false end.

(** The text [run] prints in its handler. *)
Definition run_failure_text : str := lit "エラーが発生しました".

Definition run (host : str -> option program) (self : solver) : M unit :=
  try_except
    (_run_by_subprocess host (path_to_first_solver self);;
     _run_by_subprocess host (path_to_second_solver self))
    is_CalledProcessError
    (print run_failure_text).

(** *** [Solver.get_results] *)

(** The loop [for line in lines]; [rfactor] is the local variable, [None]
    while it is unbound. *)
Fixpoint scan_lines (lines : list str) (rfactor : option pyfloat)
  : result (option pyfloat) :=
  match lines with
  | [] => Ok rfactor
  | line :: rest =>
      if PyStr.contains (lit "R-FACTOR") line
      then match PyStr.split (lit "=") line !! 1%nat with
           | None => Raise IndexError
           | Some field =>
               match PyFloat.of_str field with
               | Some v => Ok (Some v)
               | None => Raise ValueError
               end
           end
      else scan_lines rest rfactor
  end.

Definition get_results (self : solver) : M pyfloat :=
  wd ← self_work_dir;
  marker ← os_path_exists wd (lit "iv 1");
  let rfactor := if negb marker then Some inf else None in
  contents ← open_read wd (lit "search.s");
  rfactor ← lift (scan_lines (PyStr.readlines contents) rfactor);
  (if value_eq (remove_work_dir self) (VStr (lit "true"))
   then shutil_rmtree wd
   else mret tt);;
  match rfactor with
  | Some r => mret r
  | None => raise UnboundLocalError
  end.

(** The world [get_results] leaves behind once the scan is over. *)
Definition after_cleanup (self : solver) (wd : str) (w : world) : world :=
  if value_eq (remove_work_dir self) (VStr (lit "true"))
  then set_dirs (without_tree (resolve w wd) (dirs w)) w
  else w.

(** ** Auxiliary descriptions of [prepare] *)

(** The directory [prepare] works in, as the process names it. *)
Definition workspace_of (self : solver) (msg : message) (w : world) : str :=
  resolve w (os_path_join (proc_dir self) (folder_name (step msg) (set msg))).

(** The world once [_pre_dir] has made its directory and [self.work_dir]
    is set. *)
Definition named (self : solver) (msg : message) (w : world) : world :=
  set_work_dir (os_path_join (proc_dir self) (folder_name (step msg) (set msg)))
    (set_dirs
       match dirs w !! resolve w (folder_name (step msg) (set msg)) with
       | Some _ => dirs w
       | None => <[resolve w (folder_name (step msg) (set msg)) := ∅]> (dirs w)
       end w).

(** The world once the reference files [tree] are in the workspace and
    the process has moved there. *)
Definition entered (self : solver) (msg : message) (w : world)
    (tree : gmap str str) : world :=
  set_cwd (workspace_of self msg w)
    (set_dirs (<[workspace_of self msg w := tree]> (dirs (named self msg w)))
       (named self msg w)).

(** ** Templates

    The text of [tleed5.i] cut at its placeholders: a first stretch of
    text, then slots, each followed by the text up to the next slot.  A
    slot holds a token still to be replaced or the field that replaced
    it. *)

Inductive slot : Type :=
  | Tok (idx : nat)
  | Val (field : str).

Definition slot_text (s : slot) : str :=
  match s with
  | Tok idx => token idx
  | Val field => field
  end.

Fixpoint render (head : str) (rest : list (slot * str)) : str :=
  match rest with
  | [] => head
  | (s, chunk) :: rest' => head ++ slot_text s ++ render chunk rest'
  end.

(** What the loop of [_write_fit_file], started at [idx], makes of a
    slot. *)
Definition fill_from (idx : nat) (variables : list pyfloat) (s : slot) : slot :=
  match s with
  | Tok j =>
      match variables !! (j - idx)%nat with
      | Some v => Val (format_7_4f v)
      | None => Tok j
      end
  | Val field => Val field
  end.

Definition fill_one (idx : nat) (field : str) (s : slot) : slot :=
  match s with
  | Tok j => if (j =? idx)%nat then Val field else Tok j
  | Val f => Val f
  end.

Definition on_slots (f : slot -> slot) (rest : list (slot * str)) : list (slot * str) :=
  map (fun p => (f p.1, p.2)) rest.

(** A template as it comes from the reference directory: tokens only. *)
Definition fresh (rest : list (nat * str)) : list (slot * str) :=
  map (fun p => (Tok p.1, p.2)) rest.

(** Text in which [opt] does not occur. *)
Definition opt_free (s : str) : bool := negb (PyStr.contains (lit "opt") s).

(** The characters a field is made of: none of [o], [p], [t], and no
    carriage return. *)
Definition plain_char (c : ascii) : bool :=
  PyInt.is_digit c
  || existsb (Ascii.eqb c) (lit " -.infa").

Definition plain (field : str) : bool :=
  match field with
  | [] => false
  | _ :: _ => forallb plain_char field
  end.

(** The slots the loop started at [idx] may meet: tokens of four digits
    it has not passed yet, and fields. *)
Definition slot_ok (idx : nat) (s : slot) : bool :=
  match s with
  | Tok j => (idx <=? j)%nat && (N.of_nat j <? 10000)
  | Val field => plain field
  end.

Definition pieces_ok (idx : nat) (rest : list (slot * str)) : bool :=
  forallb (fun p => slot_ok idx p.1 && opt_free p.2) rest.

(** [s] holds a placeholder: [opt] followed by four digits. *)
Fixpoint has_placeholder (s : str) : bool :=
  (PyStr.startswith (lit "opt") s && forallb PyInt.is_digit (firstn 4 (skipn 3 s))
   && (4 <=? length (skipn 3 s))%nat)
  || match s with
     | [] => false
     | _ :: s' => has_placeholder s'
     end.

(** No match of [old] begins inside [a] when [a] is followed by [rest]. *)
Fixpoint clear_before (old a rest : str) : bool :=
  match a with
  | [] => true
  | _ :: a' => negb (PyStr.startswith old (a ++ rest)) && clear_before old a' rest
  end.

(** What may follow text without [opt]: nothing, or a character other
    than [p] and [t]. *)
Definition head_ok (rest : str) : bool :=
  match rest with
  | [] => true
  | c :: _ => negb (Ascii.eqb c "p"%char) && negb (Ascii.eqb c "t"%char)
  end.

(** The spec's description of a field: the legacy fixed-column
    format, four digits after the point, right-justified with blanks in
    seven columns and wider only when the number needs it; [scaled] is
    the number it shows, in ten-thousandths. *)
Definition F7_4_field (neg : bool) (scaled : N) (s : str) : Prop :=
  exists pad int frac : str,
    s = pad ++ sign_chars neg ++ int ++ "."%char :: frac
    /\ forallb (Ascii.eqb " "%char) pad = true
    /\ int <> [] /\ forallb PyInt.is_digit int = true
    /\ length frac = 4%nat /\ forallb PyInt.is_digit frac = true
    /\ PyInt.value_of int * 10000 + PyInt.value_of frac = scaled
    /\ (7 <= length s)%nat
    /\ (pad <> [] -> length s = 7%nat).

(** Characters other than [o]. *)
Definition not_o (c : ascii) : bool := negb (Ascii.eqb c "o"%char).

(** What the loop makes of a fresh template. *)
Definition filled (variables : list pyfloat) (head : str) (rest : list (nat * str)) : str :=
  render head (on_slots (fill_from 0 variables) (fresh rest)).

(** Characters other than the carriage return. *)
Definition not_CR (c : ascii) : bool := negb (Ascii.eqb c PyStr.CR).

Definition is_Val (s : slot) : bool := match s with Val _ => true | Tok _ => false end.

(** The template with the field of its value in every slot. *)
Definition with_fields (variables : list pyfloat) (head : str) (rest : list (nat * str)) : str :=
  render head (map (fun p => (Val (format_7_4f (nth p.1 variables FNan)), p.2)) rest).

(** The world after [tleed5.i] of the working directory got [contents]. *)
Definition with_template (contents : str) (files : gmap str str) (w : world) : world :=
  set_dirs (<[cwd w := <[lit "tleed5.i" := contents]> files]> (dirs w)) w.

(** ** Sample worlds, solvers, messages and templates *)

Module Sample.

(** *** Workspaces after a run *)

Definition proc : str := lit "/proc".
Definition wd : str := lit "/proc/Log00000003_00000007".

Definition solver_with (flag : value) : solver :=
  mkSolver (lit "/bin/satl1.exe") (lit "/bin/satl2.exe") (lit "ref")
           (lit "/root") proc flag.

Definition world_of (files : gmap str str) : world :=
  mkWorld {[ proc := ∅; wd := files ]} proc (Some wd) [] [].

Definition summary_ok : str :=
  lit "ITERATION 12" ++ [PyStr.LF] ++ lit " R-FACTOR = 0.1234" ++ [PyStr.LF].

Definition summary_no_label : str :=
  lit "ITERATION 12" ++ [PyStr.LF].

(** The marker and a summary with the label. *)
Definition marker_and_label : world :=
  world_of {[ lit "iv 1" := []; lit "search.s" := summary_ok ]}.

(** A summary with the label, no marker. *)
Definition label_only : world :=
  world_of {[ lit "search.s" := summary_ok ]}.

(** A summary without the label, no marker. *)
Definition no_marker_no_label : world :=
  world_of {[ lit "search.s" := summary_no_label ]}.

(** The marker and a summary without the label. *)
Definition marker_no_label : world :=
  world_of {[ lit "iv 1" := []; lit "search.s" := summary_no_label ]}.

(** Neither the marker nor the summary. *)
Definition empty_workspace : world := world_of ∅.

(** *** Reference directories, a message and executables *)

Definition root : str := lit "/root".
Definition ref : str := lit "/root/ref".

Definition template : str :=
  lit "  opt0000  opt0001   DISPLACEMENTS" ++ [PyStr.LF].

Definition reference : gmap str str :=
  {[ lit "exp.d" := lit "exp"; lit "rfac.d" := lit "rfac";
     lit "tleed4.i" := lit "t4"; lit "tleed5.i" := template ]}.

(** The process when the adapter is built: it stands in the root. *)
Definition at_root (files : gmap str str) : world :=
  mkWorld {[ root := ∅; ref := files; proc := ∅ ]} root None [] [].

(** The process when an evaluation starts: it stands in [proc]. *)
Definition at_proc (files : gmap str str) : world :=
  mkWorld {[ root := ∅; ref := files; proc := ∅ ]} proc None [] [].

Definition self : solver := solver_with (VBool false).

Definition msg : message :=
  mkMessage [FFin false 3 2; FFin true 9 4] 3 7.

(** An executable that writes one file and exits with [status]. *)
Definition writes (name contents : str) (status : Z) : program :=
  fun files => (<[name := contents]> files, status).

Definition host (status1 status2 : Z) (command : str) : option program :=
  if PyStr.eqb command (lit "/bin/satl1.exe")
  then Some (writes (lit "tleed.o") (lit "amplitudes") status1)
  else if PyStr.eqb command (lit "/bin/satl2.exe")
  then Some (writes (lit "search.s") summary_ok status2)
  else None.

(** *** Templates *)

(** The process inside a workspace that holds [template] as [tleed5.i]. *)
Definition inside (template : str) : world :=
  mkWorld {[ wd := {[ lit "tleed5.i" := template ]} ]}
          wd (Some wd) [] [].

Definition head : str := lit "  ".
Definition rest : list (nat * str) :=
  [(0%nat, lit "  "); (1%nat, lit "   DISPLACEMENTS" ++ [PyStr.LF])].

End Sample.

(** ** [Solver.__init__] *)

(** What [info.solver] holds under a key: a table of its own or a plain
    value. *)
Inductive entry : Type :=
  | Table (items : list (str * value))
  | Leaf (v : value).

(** [d[key]] on a dict kept as the list of its items, in insertion
    order. *)
Fixpoint dict_get {A : Type} (key : str) (d : list (str * A)) : option A :=
  match d with
  | [] => None
  | (k, v) :: d' => if PyStr.eqb k key then Some v else dict_get key d'
  end.

(** The exceptions of the constructor. *)
Inductive init_exn : Type :=
  | KeyError (key : str)
  | RuntimeError (msg : str)
  | TypeError
  | Raised (e : exn).

Inductive outcome (A : Type) : Type :=
  | Done (a : A)
  | Fail (e : init_exn).
Arguments Done {A} a.
Arguments Fail {A} e.

#[global] Instance outcome_ret : MRet outcome := fun A a => Done a.
#[global] Instance outcome_bind : MBind outcome := fun A B f m =>
  match m with
  | Done a => f a
  | Fail e => Fail e
  end.

(** ["Error: {} in {} is not correct keyword.".format(key, segment)] *)
Definition keyword_msg (key segment : str) : str :=
  lit "Error: " ++ key ++ lit " in " ++ segment ++ lit " is not correct keyword.".

Definition check_keywords (key segment : str) (registered_list : list str)
  : outcome unit :=
  if existsb (PyStr.eqb key) registered_list
  then Done tt
  else Fail (RuntimeError (keyword_msg key segment)).

Definition keywords_solver : list str :=
  [lit "name"; lit "config"; lit "reference"; lit "post"].

Definition keywords : list (str * list str) :=
  [(lit "config", [lit "path_to_first_solver"; lit "path_to_second_solver"]);
   (lit "reference", [lit "path_to_base_dir"]);
   (lit "post", [lit "remove_work_dir"])].

(** The loop [for key_child in info_s[key].keys()] over the keys still to
    check. *)
Fixpoint check_children (key : str) (children : list str) : outcome unit :=
  match children with
  | [] => Done tt
  | key_child :: rest =>
      registered ← match dict_get key keywords with
                   | Some l => Done l
                   | None => Fail (KeyError key)
                   end;
      check_keywords key_child key registered;;
      check_children key rest
  end.

(** The loop [for key in info_s.keys()] over the items still to check. *)
Fixpoint check_sections (todo : list (str * entry)) : outcome unit :=
  match todo with
  | [] => Done tt
  | (key, e) :: rest =>
      check_keywords key (lit "solver") keywords_solver;;
      (if PyStr.eqb key (lit "name")
       then Done tt
       else match e with
            | Table items => check_children key (map fst items)
            | Leaf _ => Fail (Raised AttributeError)
            end);;
      check_sections rest
  end.

(** [info_s[section].get(key, fallback)] *)
Definition section_get (info_s : list (str * entry)) (section key : str)
    (fallback : value) : outcome value :=
  match dict_get section info_s with
  | None => Fail (KeyError section)
  | Some (Leaf _) => Fail (Raised AttributeError)
  | Some (Table items) => Done (default fallback (dict_get key items))
  end.

(** [info_s[section][key]] *)
Definition section_item (info_s : list (str * entry)) (section key : str)
  : outcome value :=
  match dict_get section info_s with
  | None => Fail (KeyError section)
  | Some (Leaf _) => Fail TypeError
  | Some (Table items) =>
      match dict_get key items with
      | Some v => Done v
      | None => Fail (KeyError key)
      end
  end.

(** A value where a path is expected: [os.path] takes text only. *)
Definition as_path (v : value) : outcome str :=
  match v with
  | VStr s => Done s
  | _ => Fail TypeError
  end.

Definition is_sep (c : ascii) : bool := Ascii.eqb c "/"%char.

(** [p[:p.rfind("/") + 1]] *)
Fixpoint upto_last_sep (p : str) : str :=
  match p with
  | [] => []
  | c :: p' =>
      match upto_last_sep p' with
      | [] => if is_sep c then [c] else []
      | head => c :: head
      end
  end.

Fixpoint lstrip_sep (s : str) : str :=
  match s with
  | c :: s' => if is_sep c then lstrip_sep s' else s
  | [] => []
  end.

(** [os.path.dirname(p)] *)
Definition os_path_dirname (p : str) : str :=
  let head := upto_last_sep p in
  match head with
  | [] => head
  | _ :: _ => if forallb is_sep head then head else rev (lstrip_sep (rev head))
  end.

(** [f"ERROR: solver ({psolver}) is not found"] *)
Definition solver_not_found_msg (psolver : str) : str :=
  lit "ERROR: solver (" ++ psolver ++ lit ") is not found".

Section Locate.

(** The process and its file system, as far as the search reads them:
    [os.access(path, mode=os.X_OK)], [Path(p).expanduser()] and
    [os.environ["PATH"]]. *)
Variable X_OK : str -> bool.
Variable expanduser : str -> str.
Variable PATH : option str.

(** The loop [for P in itertools.chain([self.root_dir], ...)]: [P] is the
    directory at hand, [rest] the ones after it; the result is the value
    of [self.path_to_..._solver] when the loop ends. *)
Fixpoint search (psolver P : str) (rest : list str) : str :=
  let path := os_path_join P psolver in
  if X_OK path then path
  else match rest with
       | [] => path
       | P' :: rest' => search psolver P' rest'
       end.

(** Lines 66 to 76 and 79 to 89, for the configured name [psolver]. *)
Definition locate (root : str) (psolver : str) : outcome str :=
  path ← (if negb (PyStr.eqb (os_path_dirname psolver) [])
          then Done (os_path_join root (expanduser psolver))
          else match PATH with
               | Some dirs => Done (search psolver root (PyStr.split (lit ":") dirs))
               | None => Fail (KeyError (lit "PATH"))
               end);
  if negb (X_OK path)
  then Fail (Raised (InputError (solver_not_found_msg psolver)))
  else Done path.

(** [Solver.__init__]; [root] and [proc] are [self.root_dir] and
    [self.proc_dir], which [SolverBase.__init__] sets, and the last
    statement, [Solver.Input(info)], reads [info.base] only. *)
Definition __init__ (info_s : list (str * entry)) (root proc : str) (w : world)
  : outcome solver :=
  remove ← section_get info_s (lit "post") (lit "remove_work_dir") (VBool false);
  check_sections info_s;;
  p1solver ← section_get info_s (lit "config") (lit "path_to_first_solver")
               (VStr (lit "satl1.exe"));
  p1solver ← as_path p1solver;
  first ← locate root p1solver;
  p2solver ← section_get info_s (lit "config") (lit "path_to_second_solver")
               (VStr (lit "satl2.exe"));
  p2solver ← as_path p2solver;
  second ← locate root p2solver;
  base ← section_item info_s (lit "reference") (lit "path_to_base_dir");
  base ← as_path base;
  let self := mkSolver first second base root proc remove in
  match init_check_files self w with
  | (_, Ok _) => Done self
  | (_, Raise e) => Fail (Raised e)
  end.

End Locate.

(** The keys registered for a section; none for an unknown section. *)
Definition registered (key : str) : list str := default [] (dict_get key keywords).

(** An item of [info.solver] the keyword check lets pass. *)
Definition section_ok (item : str * entry) : bool :=
  existsb (PyStr.eqb item.1) keywords_solver
  && (PyStr.eqb item.1 (lit "name")
      || match item.2 with
         | Table items =>
             forallb (fun child => existsb (PyStr.eqb child) (registered item.1))
               (map fst items)
         | Leaf _ => false
         end).

Module SampleInit.

Definition info_s : list (str * entry) :=
  [(lit "name", Leaf (VStr (lit "leed")));
   (lit "config", Table [(lit "path_to_first_solver", VStr (lit "bin/satl1.exe"))]);
   (lit "reference", Table [(lit "path_to_base_dir", VStr (lit "ref"))]);
   (lit "post", Table [(lit "remove_work_dir", VBool true)])].

(** The executables of the sample machine. *)
Definition X_OK (path : str) : bool :=
  PyStr.eqb path (lit "/root/bin/satl1.exe")
  || PyStr.eqb path (lit "/usr/local/bin/satl2.exe").

(** A machine without them. *)
Definition no_solver (path : str) : bool := false.

(** No path of the samples begins with a tilde. *)
Definition expanduser (p : str) : str := p.

Definition PATH : option str := Some (lit "/usr/bin:/usr/local/bin").

Definition self : solver :=
  mkSolver (lit "/root/bin/satl1.exe") (lit "/usr/local/bin/satl2.exe")
           (lit "ref") (lit "/root") (lit "/proc") (VBool true).

End SampleInit.

(** ** More sample worlds *)

Module More.

(** A summary whose line with the label has no [=]. *)
Definition no_equals : world :=
  Sample.world_of {[ lit "search.s" := lit "R-FACTOR 0.1234" ++ [PyStr.LF] ]}.

(** A summary whose line with the label has no number behind [=]. *)
Definition not_a_number : world :=
  Sample.world_of {[ lit "search.s" := lit "R-FACTOR = n/a" ++ [PyStr.LF] ]}.

(** The process in [proc], no reference directory. *)
Definition no_reference : world :=
  mkWorld {[ Sample.proc := ∅ ]} Sample.proc None [] [].

(** A template without tokens. *)
Definition plain_text : str := lit " 3 1                NSYM" ++ [PyStr.LF].

(** A workspace with a sub-directory, next to a directory whose name
    begins like the workspace's. *)
Definition plots : str := lit "/proc/Log00000003_00000007/plots".
Definition neighbour : str := lit "/proc/Log00000003_000000070".

Definition with_plots : world :=
  mkWorld {[ Sample.proc := ∅;
             Sample.wd := {[ lit "iv 1" := []; lit "search.s" := Sample.summary_ok ]};
             plots := {[ lit "iv.dat" := lit "1 2" ]};
             neighbour := ∅ ]}
          Sample.proc (Some Sample.wd) [] [].

(** A summary whose number stands between no-break spaces. *)
Definition no_break_space : ascii := ascii_of_N 160.

Definition padded_number : world :=
  Sample.world_of
    {[ lit "search.s" :=
         lit "R-FACTOR =" ++ [no_break_space] ++ lit "0.5" ++ [no_break_space; PyStr.LF] ]}.

End More.

(** * Properties *)

(** ** The text and number formats on samples *)

Example folder_name_3_7 :
  folder_name 3 7 = lit "Log00000003_00000007".
Proof. reflexivity. Qed.

Example folder_name_wide :
  folder_name 123456789 0 = lit "Log123456789_00000000".
Proof. reflexivity. Qed.

Example format_1_5 : format_7_4f (FFin false 3 2) = lit " 1.5000".
Proof. reflexivity. Qed.

Example format_m2_25 : format_7_4f (FFin true 9 4) = lit "-2.2500".
Proof. reflexivity. Qed.

Example format_100 : format_7_4f (FFin false 100 1) = lit "100.0000".
Proof. reflexivity. Qed.

Example format_neg_zero : format_7_4f (FFin true 1 100000) = lit "-0.0000".
Proof. reflexivity. Qed.

Example format_tie_even : format_7_4f (FFin false 1 8) = lit " 0.1250"
  /\ format_7_4f (FFin false 5 100000) = lit " 0.0000"
  /\ format_7_4f (FFin false 15 100000) = lit " 0.0002".
Proof. repeat split. Qed.

Example format_minus_inf : format_7_4f (FInf true) = lit "   -inf".
Proof. reflexivity. Qed.

Example float_0_1234 :
  of_str (lit " 0.1234" ++ [PyStr.LF]) = Some (FFin false 1234 10000).
Proof. vm_compute. reflexivity. Qed.

Example float_samples :
  of_str (lit "1_0.5e1_0") = Some (FFin false 105000000000 1)
  /\ of_str (lit "+.5e-3") = Some (FFin false 5 10000)
  /\ of_str (lit "5.") = Some (FFin false 5 1)
  /\ of_str (lit "-Infinity") = Some (FInf true)
  /\ of_str (lit "1e400") = Some (FInf false)
  /\ of_str (lit "1.7976931348623159e308") = Some (FInf false)
  /\ of_str (lit ".") = None
  /\ of_str (lit "1__0") = None
  /\ of_str (lit "1_.5") = None
  /\ of_str (lit "1e+") = None
  /\ of_str (lit "1 2") = None
  /\ of_str (lit "") = None.
Proof. vm_compute. repeat split. Qed.

(** White space outside ASCII is stripped as well, the ASCII separators
    are not. *)
Example float_wide_space :
  of_str ([ascii_of_N 160] ++ lit "0.5" ++ [ascii_of_N 133]) = Some (FFin false 5 10)
  /\ of_str (lit "1" ++ [ascii_of_N 160] ++ lit "5") = None
  /\ of_str ([ascii_of_N 28] ++ lit "0.5") = None.
Proof. vm_compute. repeat split. Qed.

Example token_7 : token 7 = lit "opt0007".
Proof. reflexivity. Qed.

Example token_12345 : token (N.to_nat 12345) = lit "opt12345".
Proof. reflexivity. Qed.

Example substitute_two :
  substitute 0 [FFin false 3 2; FFin true 9 4] (lit "a opt0000 b opt0001 opt0000")
  = lit "a  1.5000 b -2.2500  1.5000".
Proof. reflexivity. Qed.

(** ** Decimal digits *)

Section Digits.

Import PyInt.

Lemma digit_char_code (d : N) : d < 10 -> N_of_ascii (digit_char d) = 48 + d.
Proof. intros Hd. unfold digit_char. apply N_ascii_embedding. lia. Qed.

Lemma digit_value_char (d : N) : d < 10 -> digit_value (digit_char d) = d.
Proof. intros Hd. unfold digit_value. rewrite digit_char_code by exact Hd. lia. Qed.

Lemma is_digit_char (d : N) : d < 10 -> is_digit (digit_char d) = true.
Proof.
  intros Hd. unfold is_digit. rewrite digit_char_code by exact Hd.
  apply andb_true_intro. split; apply N.leb_le; lia.
Qed.

Lemma mod10_lt (n : N) : n mod 10 < 10.
Proof. apply N.mod_lt. discriminate. Qed.

Lemma digits_fuel_S (f : nat) (n : N) (acc : str) :
  digits_fuel (S f) n acc =
  if n <? 10 then digit_char (n mod 10) :: acc
  else digits_fuel f (n / 10) (digit_char (n mod 10) :: acc).
Proof. reflexivity. Qed.

(** Reading back the digits written in front of [acc] gives [n], then
    goes on with [acc]. *)
Lemma value_digits_fuel (f : nat) : forall (n : N) (acc : str),
  n < 2 ^ N.of_nat f ->
  fold_left (fun a c => 10 * a + digit_value c) (digits_fuel (S f) n acc) 0
  = fold_left (fun a c => 10 * a + digit_value c) acc n.
Proof.
  induction f as [|f IH]; intros n acc Hn.
  - assert (n = 0) by (simpl in Hn; lia). subst n. reflexivity.
  - rewrite digits_fuel_S. destruct (n <? 10) eqn:Hlt.
    + apply N.ltb_lt in Hlt. cbn [fold_left].
      rewrite digit_value_char by apply mod10_lt.
      rewrite N.mod_small by exact Hlt. reflexivity.
    + apply N.ltb_ge in Hlt. rewrite IH.
      * cbn [fold_left]. rewrite digit_value_char by apply mod10_lt.
        f_equal. rewrite (N.div_mod n 10) at 3 by discriminate. reflexivity.
      * rewrite Nat2N.inj_succ, N.pow_succ_r' in Hn.
        apply N.Div0.div_lt_upper_bound. lia.
Qed.

Lemma value_of_str_of_N (n : N) : value_of (str_of_N n) = n.
Proof.
  unfold value_of, str_of_N. rewrite value_digits_fuel; [reflexivity|].
  rewrite N2Nat.id. apply N.size_gt.
Qed.

Lemma digits_fuel_all_digits (f : nat) : forall (n : N) (acc : str),
  forallb is_digit acc = true -> forallb is_digit (digits_fuel f n acc) = true.
Proof.
  induction f as [|f IH]; intros n acc Hacc; [exact Hacc|].
  rewrite digits_fuel_S.
  assert (Hacc' : forallb is_digit (digit_char (n mod 10) :: acc) = true).
  { cbn [forallb]. rewrite is_digit_char by apply mod10_lt. exact Hacc. }
  destruct (n <? 10); [exact Hacc'|]. apply IH, Hacc'.
Qed.

Lemma str_of_N_all_digits (n : N) : forallb is_digit (str_of_N n) = true.
Proof. apply digits_fuel_all_digits. reflexivity. Qed.

Lemma digits_fuel_length (f : nat) : forall (n : N) (acc : str),
  (length acc < length (digits_fuel (S f) n acc))%nat.
Proof.
  induction f as [|f IH]; intros n acc.
  - cbn. destruct (n <? 10); cbn; lia.
  - rewrite digits_fuel_S. destruct (n <? 10); [cbn; lia|].
    specialize (IH (n / 10) (digit_char (n mod 10) :: acc)).
    cbn [length] in IH. lia.
Qed.

Lemma str_of_N_nonempty (n : N) : str_of_N n <> [].
Proof.
  unfold str_of_N. intros H.
  pose proof (digits_fuel_length (N.to_nat (N.size n)) n []) as Hl.
  rewrite H in Hl. cbn in Hl. lia.
Qed.

Lemma value_of_zfill (w : nat) (s : str) : value_of (PyStr.zfill w s) = value_of s.
Proof.
  unfold value_of, PyStr.zfill, PyStr.rjust. rewrite fold_left_app.
  f_equal. induction (w - length s)%nat as [|k IH]; [reflexivity|exact IH].
Qed.

Lemma zfill_all_digits (w : nat) (s : str) :
  forallb is_digit s = true -> forallb is_digit (PyStr.zfill w s) = true.
Proof.
  intros Hs. unfold PyStr.zfill, PyStr.rjust. rewrite forallb_app, Hs, andb_true_r.
  induction (w - length s)%nat as [|k IH]; [reflexivity|exact IH].
Qed.

Lemma zfill_length (w : nat) (s : str) : (w <= length (PyStr.zfill w s))%nat.
Proof.
  unfold PyStr.zfill, PyStr.rjust. rewrite length_app, repeat_length. lia.
Qed.

End Digits.

(** ** Workspace names *)

Section FolderName.

Import PyInt.

Lemma digit_not_underscore (c : ascii) : is_digit c = true -> c <> "_"%char.
Proof. intros Hc ->. discriminate Hc. Qed.

(** Two digit strings followed by ["_"] split a text the same way. *)
Lemma digits_underscore_inj (a : str) : forall (a' b b' : str),
  forallb is_digit a = true -> forallb is_digit a' = true ->
  a ++ "_"%char :: b = a' ++ "_"%char :: b' -> a = a' /\ b = b'.
Proof.
  induction a as [|c a IH]; intros [|c' a'] b b' Ha Ha' E; cbn in *.
  - injection E as ->. split; reflexivity.
  - injection E as <- _. apply andb_prop in Ha' as [Hc _].
    exfalso. exact (digit_not_underscore _ Hc eq_refl).
  - injection E as -> _. apply andb_prop in Ha as [Hc _].
    exfalso. exact (digit_not_underscore _ Hc eq_refl).
  - injection E as -> E. apply andb_prop in Ha as [_ Ha].
    apply andb_prop in Ha' as [_ Ha'].
    destruct (IH a' b b' Ha Ha' E) as [-> ->]. split; reflexivity.
Qed.

Lemma format_08d_nonneg (z : Z) :
  (0 <= z)%Z -> format_08d z = PyStr.zfill 8 (str_of_N (Z.to_N z)).
Proof.
  intros Hz. unfold format_08d.
  destruct (z <? 0)%Z eqn:Hneg; [apply Z.ltb_lt in Hneg; lia|].
  f_equal. f_equal. lia.
Qed.

Lemma format_08d_all_digits (z : Z) :
  (0 <= z)%Z -> forallb is_digit (format_08d z) = true.
Proof.
  intros Hz. rewrite format_08d_nonneg by exact Hz.
  apply zfill_all_digits, str_of_N_all_digits.
Qed.

Lemma value_of_format_08d (z : Z) :
  (0 <= z)%Z -> Z.of_N (value_of (format_08d z)) = z.
Proof.
  intros Hz. rewrite format_08d_nonneg by exact Hz.
  rewrite value_of_zfill, value_of_str_of_N. lia.
Qed.

(** C7.  The name [_pre_dir] derives from a step and a set that are not
    negative is ["Log"], the step, ["_"], the set, each written with at
    least eight decimal digits that denote it; and two different pairs
    never get the same name. *)
Theorem folder_name_injective (s1 t1 s2 t2 : Z) :
  (0 <= s1)%Z -> (0 <= t1)%Z -> (0 <= s2)%Z -> (0 <= t2)%Z ->
  (exists a b : str,
      folder_name s1 t1 = lit "Log" ++ a ++ lit "_" ++ b
      /\ forallb is_digit a = true /\ (8 <= length a)%nat
      /\ Z.of_N (value_of a) = s1
      /\ forallb is_digit b = true /\ (8 <= length b)%nat
      /\ Z.of_N (value_of b) = t1)
  /\ ((s1, t1) <> (s2, t2) -> folder_name s1 t1 <> folder_name s2 t2).
Proof.
  intros Hs1 Ht1 Hs2 Ht2. split.
  - exists (format_08d s1), (format_08d t1).
    rewrite !format_08d_all_digits, !value_of_format_08d by assumption.
    rewrite !format_08d_nonneg by assumption.
    repeat split; try apply zfill_length.
    unfold folder_name. rewrite !format_08d_nonneg by assumption. reflexivity.
  - intros Hne E. apply Hne. unfold folder_name in E.
    apply app_inv_head in E. cbn [lit list_ascii_of_string app] in E.
    apply digits_underscore_inj in E as [Ea Eb];
      try (apply format_08d_all_digits; assumption).
    rewrite <- (value_of_format_08d s1), <- (value_of_format_08d t1) by assumption.
    rewrite Ea, Eb.
    rewrite !value_of_format_08d by assumption. reflexivity.
Qed.

Lemma folder_name_injective_witness :
  folder_name 3 7 = lit "Log00000003_00000007"
  /\ folder_name 3 7 <> folder_name 7 3.
Proof.
  split; [reflexivity|].
  apply (proj2 (folder_name_injective 3 7 7 3 ltac:(lia) ltac:(lia) ltac:(lia) ltac:(lia))).
  discriminate.
Defined.

End FolderName.

(** ** Result extraction ([get_results]) *)

Section GetResults.

(** [get_results] step by step, for a solver that has a workspace. *)
Lemma get_results_eq (self : solver) (w : world) (wd : str) :
  work_dir w = Some wd ->
  get_results self w =
  match lookup_file w wd (lit "search.s") with
  | None => (w, Raise FileNotFoundError)
  | Some contents =>
      match scan_lines (PyStr.readlines (PyStr.translate_newlines contents))
              (if bool_decide (is_Some (lookup_file w wd (lit "iv 1")))
               then None else Some inf) with
      | Raise e => (w, Raise e)
      | Ok rfactor =>
          (after_cleanup self wd w,
           match rfactor with
           | Some r => Ok r
           | None => Raise UnboundLocalError
           end)
      end
  end.
Proof.
  intros Hwd.
  unfold get_results, self_work_dir, os_path_exists, open_read, get, lift.
  unfold mbind, M_bind. rewrite Hwd.
  destruct (lookup_file w wd (lit "search.s")) as [contents|] eqn:Hs; [|reflexivity].
  destruct (bool_decide (is_Some (lookup_file w wd (lit "iv 1")))); cbn [negb];
    (destruct (scan_lines _ _) as [rfactor|e]; [|reflexivity]);
    unfold after_cleanup, shutil_rmtree, mret, M_ret, raise;
    (destruct (value_eq _ _);
     [ unfold lookup_file in Hs;
       destruct (dirs w !! resolve w wd) as [fs|]; [|discriminate Hs];
       destruct rfactor; reflexivity
     | destruct rfactor; reflexivity ]).
Qed.

(** A scan that meets no line with the label keeps the variable as it was. *)
Lemma scan_lines_no_label (lines : list str) (rfactor : option pyfloat) :
  Forall (fun line => PyStr.contains (lit "R-FACTOR") line = false) lines ->
  scan_lines lines rfactor = Ok rfactor.
Proof.
  induction 1 as [|line rest Hline _ IH]; [reflexivity|].
  cbn [scan_lines]. rewrite Hline. exact IH.
Qed.

(** A scan stops at the first line with the label. *)
Lemma scan_lines_first_label (pre post : list str) (line field : str)
    (v : pyfloat) (rfactor : option pyfloat) :
  Forall (fun l => PyStr.contains (lit "R-FACTOR") l = false) pre ->
  PyStr.contains (lit "R-FACTOR") line = true ->
  PyStr.split (lit "=") line !! 1%nat = Some field ->
  PyFloat.of_str field = Some v ->
  scan_lines (pre ++ line :: post) rfactor = Ok (Some v).
Proof.
  intros Hpre Hline Hfield Hv.
  induction Hpre as [|l pre Hl _ IH]; cbn [app scan_lines].
  - rewrite Hline, Hfield, Hv. reflexivity.
  - rewrite Hl. exact IH.
Qed.

End GetResults.

Section GetResultsClaims.

Abbreviation no_label :=
  (fun line : str => PyStr.contains (lit "R-FACTOR") line = false).

(** C1 (as amended).  With the marker [iv 1] absent and [search.s] present,
    [get_results] returns positive infinity when no line of [search.s]
    contains [R-FACTOR]; when a line does, the value read from the first
    such line is returned, as it is when the marker is present. *)
Theorem get_results_marker_absent (self : solver) (w : world) (wd contents : str) :
  work_dir w = Some wd ->
  lookup_file w wd (lit "iv 1") = None ->
  lookup_file w wd (lit "search.s") = Some contents ->
  (Forall no_label (PyStr.readlines (PyStr.translate_newlines contents)) ->
   get_results self w = (after_cleanup self wd w, Ok inf))
  /\ (forall (pre post : list str) (line field : str) (v : pyfloat),
        PyStr.readlines (PyStr.translate_newlines contents) = pre ++ line :: post ->
        Forall no_label pre ->
        PyStr.contains (lit "R-FACTOR") line = true ->
        PyStr.split (lit "=") line !! 1%nat = Some field ->
        PyFloat.of_str field = Some v ->
        get_results self w = (after_cleanup self wd w, Ok v)).
Proof.
  intros Hwd Hmarker Hsummary.
  rewrite (get_results_eq self w wd Hwd), Hsummary, Hmarker.
  rewrite bool_decide_eq_false_2 by (intros [? ?]; discriminate).
  split.
  - intros Hlines. rewrite scan_lines_no_label by exact Hlines. reflexivity.
  - intros pre post line field v -> Hpre Hline Hfield Hv.
    rewrite (scan_lines_first_label pre post line field v) by assumption.
    reflexivity.
Qed.

Lemma get_results_marker_absent_witness :
  work_dir Sample.no_marker_no_label = Some Sample.wd
  /\ lookup_file Sample.no_marker_no_label Sample.wd (lit "iv 1") = None
  /\ get_results (Sample.solver_with (VBool false)) Sample.no_marker_no_label
     = (Sample.no_marker_no_label, Ok inf)
  /\ get_results (Sample.solver_with (VBool false)) Sample.label_only
     = (Sample.label_only, Ok (FFin false 1234 10000)).
Proof.
  split; [reflexivity|]. split; [reflexivity|]. split.
  - refine (proj1 (get_results_marker_absent (Sample.solver_with (VBool false))
                     Sample.no_marker_no_label Sample.wd Sample.summary_no_label
                     eq_refl _ _) _).
    + reflexivity.
    + reflexivity.
    + vm_compute. repeat constructor.
  - refine (proj2 (get_results_marker_absent (Sample.solver_with (VBool false))
                     Sample.label_only Sample.wd Sample.summary_ok
                     eq_refl _ _)
              [lit "ITERATION 12" ++ [PyStr.LF]] []
              (lit " R-FACTOR = 0.1234" ++ [PyStr.LF])
              (lit " 0.1234" ++ [PyStr.LF]) (FFin false 1234 10000)
              _ _ _ _ _).
    + reflexivity.
    + reflexivity.
    + reflexivity.
    + vm_compute. repeat constructor.
    + reflexivity.
    + reflexivity.
    + vm_compute. reflexivity.
Defined.

(** C1 fails as stated: without the marker, a summary whose line reads
    [R-FACTOR = 0.1234] makes [get_results] return 0.1234. *)
Lemma get_results_marker_absent_not_always_inf :
  lookup_file Sample.label_only Sample.wd (lit "iv 1") = None
  /\ get_results (Sample.solver_with (VBool false)) Sample.label_only
     = (Sample.label_only, Ok (FFin false 1234 10000))
  /\ FFin false 1234 10000 <> inf.
Proof.
  split; [reflexivity|]. split; [reflexivity|discriminate].
Qed.

(** C4.  With the marker present and [search.s] holding no line that
    contains [R-FACTOR], [rfactor] is never bound and [get_results] ends
    in [UnboundLocalError]: it returns no value. *)
Theorem get_results_unbound (self : solver) (w : world) (wd contents : str) :
  work_dir w = Some wd ->
  is_Some (lookup_file w wd (lit "iv 1")) ->
  lookup_file w wd (lit "search.s") = Some contents ->
  Forall no_label (PyStr.readlines (PyStr.translate_newlines contents)) ->
  get_results self w = (after_cleanup self wd w, Raise UnboundLocalError).
Proof.
  intros Hwd Hmarker Hsummary Hlines.
  rewrite (get_results_eq self w wd Hwd), Hsummary.
  rewrite bool_decide_eq_true_2 by exact Hmarker.
  rewrite scan_lines_no_label by exact Hlines. reflexivity.
Qed.

Lemma get_results_unbound_witness :
  is_Some (lookup_file Sample.marker_no_label Sample.wd (lit "iv 1"))
  /\ get_results (Sample.solver_with (VBool false)) Sample.marker_no_label
     = (Sample.marker_no_label, Raise UnboundLocalError).
Proof.
  assert (Hm : is_Some (lookup_file Sample.marker_no_label Sample.wd (lit "iv 1"))).
  { exists []. vm_compute. reflexivity. }
  split; [exact Hm|].
  refine (get_results_unbound (Sample.solver_with (VBool false))
            Sample.marker_no_label Sample.wd Sample.summary_no_label
            eq_refl Hm _ _).
  - reflexivity.
  - vm_compute. repeat constructor.
Defined.

(** C5.  [get_results] opens [search.s] whatever the marker check found:
    when the file does not exist the call raises [FileNotFoundError] and
    returns nothing, also when [iv 1] is absent too. *)
Theorem get_results_needs_summary (self : solver) (w : world) (wd : str) :
  work_dir w = Some wd ->
  lookup_file w wd (lit "search.s") = None ->
  get_results self w = (w, Raise FileNotFoundError).
Proof.
  intros Hwd Hsummary.
  rewrite (get_results_eq self w wd Hwd), Hsummary. reflexivity.
Qed.

Lemma get_results_needs_summary_witness :
  lookup_file Sample.empty_workspace Sample.wd (lit "iv 1") = None
  /\ lookup_file Sample.empty_workspace Sample.wd (lit "search.s") = None
  /\ get_results (Sample.solver_with (VBool false)) Sample.empty_workspace
     = (Sample.empty_workspace, Raise FileNotFoundError).
Proof.
  split; [reflexivity|]. split; [reflexivity|].
  apply (get_results_needs_summary (Sample.solver_with (VBool false))
           Sample.empty_workspace Sample.wd eq_refl).
  reflexivity.
Defined.

(** The clean-up compares the flag with the string ["true"]: a flag that
    is a boolean never starts it, and [get_results] leaves the world as it
    found it. *)
Lemma get_results_bool_flag (self : solver) (w : world) (b : bool) :
  remove_work_dir self = VBool b -> fst (get_results self w) = w.
Proof.
  intros Hflag. destruct (work_dir w) as [wd|] eqn:Hwd.
  - rewrite (get_results_eq self w wd Hwd). unfold after_cleanup.
    rewrite Hflag. cbn [value_eq].
    destruct (lookup_file w wd (lit "search.s")); [|reflexivity].
    destruct (scan_lines _ _); reflexivity.
  - unfold get_results, self_work_dir, mbind, M_bind. rewrite Hwd. reflexivity.
Qed.

Lemma eqb_refl (a : str) : PyStr.eqb a a = true.
Proof.
  induction a as [|c a IH]; [reflexivity|].
  cbn [PyStr.eqb]. rewrite Ascii.eqb_refl, IH. reflexivity.
Qed.

Lemma beneath_refl (top : str) : beneath top top = true.
Proof. unfold beneath. rewrite eqb_refl. reflexivity. Qed.

(** Removing a tree empties every path in it and leaves the others. *)
Lemma without_tree_inside (top d : str) (ds : gmap str (gmap str str)) :
  beneath top d = true -> without_tree top ds !! d = None.
Proof.
  intros Hd. unfold without_tree. apply map_lookup_filter_None.
  right. intros files _. cbn. rewrite Hd. discriminate.
Qed.

Lemma without_tree_outside (top d : str) (ds : gmap str (gmap str str)) :
  beneath top d = false -> without_tree top ds !! d = ds !! d.
Proof.
  intros Hd. unfold without_tree.
  destruct (ds !! d) as [files|] eqn:E.
  - apply map_lookup_filter_Some. split; [exact E|exact Hd].
  - apply map_lookup_filter_None. left. exact E.
Qed.

(** With the string ["true"] as flag the workspace is gone once a value
    is returned. *)
Lemma get_results_string_flag (self : solver) (w w' : world) (wd : str) (r : pyfloat) :
  remove_work_dir self = VStr (lit "true") ->
  work_dir w = Some wd ->
  get_results self w = (w', Ok r) ->
  dirs w' !! resolve w wd = None.
Proof.
  intros Hflag Hwd. rewrite (get_results_eq self w wd Hwd).
  unfold after_cleanup. rewrite Hflag.
  destruct (lookup_file w wd (lit "search.s")); [|discriminate].
  destruct (scan_lines _ _) as [[v|]|]; try discriminate.
  intros [= <- _]. cbn. apply without_tree_inside, beneath_refl.
Qed.

(** C2, at the input where the code departs from it: the flag is the
    boolean [True], the run produced the marker and a summary with the
    label; [get_results] returns 0.1234 and the workspace is still there,
    with every file in it. *)
Theorem get_results_true_keeps_workspace :
  get_results (Sample.solver_with (VBool true)) Sample.marker_and_label
  = (Sample.marker_and_label, Ok (FFin false 1234 10000))
  /\ dirs Sample.marker_and_label !! Sample.wd
     = Some {[ lit "iv 1" := []; lit "search.s" := Sample.summary_ok ]}.
Proof. split; reflexivity. Qed.

End GetResultsClaims.

(** ** Substrings *)

Section Substrings.

Import PyStr.

Lemma startswith_app (p s : str) : startswith p (p ++ s) = true.
Proof.
  induction p as [|c p IH]; [reflexivity|].
  cbn. rewrite Ascii.eqb_refl. exact IH.
Qed.

Lemma contains_startswith (p s : str) : startswith p s = true -> contains p s = true.
Proof. intros H. destruct s; cbn [contains]; rewrite H; reflexivity. Qed.

Lemma contains_app_r (p a s : str) : contains p s = true -> contains p (a ++ s) = true.
Proof.
  intros H. induction a as [|c a IH]; [exact H|].
  cbn [app contains]. rewrite IH. apply orb_true_r.
Qed.

Lemma contains_middle (p a b : str) : contains p (a ++ p ++ b) = true.
Proof. apply contains_app_r, contains_startswith, startswith_app. Qed.

End Substrings.

(** ** The reference files ([Solver.__init__]) *)

Section ReferenceFiles.

Variable X_OK : str -> bool.
Variable expanduser : str -> str.
Variable PATH : option str.

Lemma check_files_eq (base : str) (w : world) : forall todo : list str,
  check_files base todo w =
  match find (fun f => negb (bool_decide (is_Some (lookup_file w base f)))) todo with
  | Some file => (w, Raise (InputError (missing_file_msg file base)))
  | None => (w, Ok tt)
  end.
Proof.
  induction todo as [|file rest IH]; [reflexivity|].
  cbn [check_files find]. unfold mbind, M_bind, os_path_exists, get.
  destruct (negb (bool_decide (is_Some (lookup_file w base file)))); [reflexivity|].
  exact IH.
Qed.

Lemma missing_file_msg_names (file base : str) :
  PyStr.contains file (missing_file_msg file base) = true
  /\ PyStr.contains base (missing_file_msg file base) = true.
Proof.
  unfold missing_file_msg. split.
  - apply contains_middle.
  - rewrite !(app_assoc _ _ (base ++ _)). apply contains_middle.
Qed.

(** Where the check looks.  Line 95 joins [path_to_base_dir] and the
    file name, so the process resolves the path from where it stands;
    line 103 of [prepare] copies [os.path.join(root_dir, path_to_base_dir)].
    The two name one directory when the configured path is absolute, and
    when the process stands in [root_dir]. *)
Lemma checked_directory (w : world) (root base : str) :
  base <> [] ->
  PyStr.startswith (lit "/") base = true
  \/ (cwd w = root /\ PyStr.startswith (lit "/") root = true) ->
  resolve w base = resolve w (os_path_join root base).
Proof.
  intros Hbase Hcase. destruct base as [|c base]; [contradiction|].
  unfold resolve at 1.
  destruct (PyStr.startswith (lit "/") (c :: base)) eqn:Habs.
  - unfold resolve, os_path_join. rewrite Habs. cbv iota. rewrite Habs. reflexivity.
  - destruct Hcase as [Hcase|[Hcwd Hroot]]; [discriminate Hcase|].
    rewrite Hcwd. unfold resolve.
    destruct root as [|r root]; [discriminate Hroot|].
    assert (Hjoin : PyStr.startswith (lit "/") (os_path_join (r :: root) (c :: base)) = true).
    { unfold os_path_join. rewrite Habs.
      destruct (has_sep_end (r :: root)); exact Hroot. }
    destruct (os_path_join (r :: root) (c :: base)) as [|j joined] eqn:E;
      [discriminate Hjoin|].
    rewrite Hcwd. unfold os_path_join. rewrite Hjoin. reflexivity.
Qed.

(** Once the checks before it have passed, [__init__] ends as the loop
    over the reference files does. *)
Lemma init_after_checks (info_s : list (str * entry)) (root proc : str) (w : world)
    (remove : value) (p1 p2 first second base : str) :
  section_get info_s (lit "post") (lit "remove_work_dir") (VBool false) = Done remove ->
  check_sections info_s = Done tt ->
  section_get info_s (lit "config") (lit "path_to_first_solver")
    (VStr (lit "satl1.exe")) = Done (VStr p1) ->
  locate X_OK expanduser PATH root p1 = Done first ->
  section_get info_s (lit "config") (lit "path_to_second_solver")
    (VStr (lit "satl2.exe")) = Done (VStr p2) ->
  locate X_OK expanduser PATH root p2 = Done second ->
  section_item info_s (lit "reference") (lit "path_to_base_dir") = Done (VStr base) ->
  __init__ X_OK expanduser PATH info_s root proc w =
  match check_files base files w with
  | (_, Ok _) => Done (mkSolver first second base root proc remove)
  | (_, Raise e) => Fail (Raised e)
  end.
Proof.
  intros Hpost Hkeys Hp1 Hfirst Hp2 Hsecond Hbase.
  unfold __init__, mbind, outcome_bind.
  rewrite Hpost, Hkeys, Hp1. cbn [as_path]. rewrite Hfirst, Hp2. cbn [as_path].
  rewrite Hsecond, Hbase. reflexivity.
Qed.

(** C9, as the code has it.  Take a configuration that passes what
    [__init__] checks first: the section [post], the keys, both solver
    searches and the item [reference.path_to_base_dir]; and let
    [path_to_base_dir] name, from where the process stands, the directory
    [prepare] copies, [os.path.join(root_dir, path_to_base_dir)].  Then
    [__init__] raises [InputError] for the first of [exp.d], [rfac.d],
    [tleed4.i], [tleed5.i] that this directory lacks, with a message that
    holds the name of the file and [path_to_base_dir] as configured, and
    it returns the adapter exactly when the four files are there. *)
Theorem init_reference_files (info_s : list (str * entry)) (root proc : str)
    (w : world) (remove : value) (p1 p2 first second base : str) :
  section_get info_s (lit "post") (lit "remove_work_dir") (VBool false) = Done remove ->
  check_sections info_s = Done tt ->
  section_get info_s (lit "config") (lit "path_to_first_solver")
    (VStr (lit "satl1.exe")) = Done (VStr p1) ->
  locate X_OK expanduser PATH root p1 = Done first ->
  section_get info_s (lit "config") (lit "path_to_second_solver")
    (VStr (lit "satl2.exe")) = Done (VStr p2) ->
  locate X_OK expanduser PATH root p2 = Done second ->
  section_item info_s (lit "reference") (lit "path_to_base_dir") = Done (VStr base) ->
  resolve w base = resolve w (os_path_join root base) ->
  let present (file : str) : Prop :=
    is_Some (lookup_file w (os_path_join root base) file) in
  let refused (file : str) : Prop :=
    __init__ X_OK expanduser PATH info_s root proc w
    = Fail (Raised (InputError
        (lit "ERROR: input file (" ++ file ++ lit ") is not found in ("
         ++ base ++ lit ")"))) in
  (~ present (lit "exp.d") -> refused (lit "exp.d"))
  /\ (present (lit "exp.d") -> ~ present (lit "rfac.d") -> refused (lit "rfac.d"))
  /\ (present (lit "exp.d") -> present (lit "rfac.d") ->
      ~ present (lit "tleed4.i") -> refused (lit "tleed4.i"))
  /\ (present (lit "exp.d") -> present (lit "rfac.d") -> present (lit "tleed4.i") ->
      ~ present (lit "tleed5.i") -> refused (lit "tleed5.i"))
  /\ (__init__ X_OK expanduser PATH info_s root proc w
      = Done (mkSolver first second base root proc remove)
      <-> present (lit "exp.d") /\ present (lit "rfac.d")
          /\ present (lit "tleed4.i") /\ present (lit "tleed5.i")).
Proof.
  intros Hpost Hkeys Hp1 Hfirst Hp2 Hsecond Hbase Hsame present refused.
  subst present refused. cbv beta.
  rewrite (init_after_checks info_s root proc w remove p1 p2 first second base
             Hpost Hkeys Hp1 Hfirst Hp2 Hsecond Hbase).
  rewrite check_files_eq. unfold files, missing_file_msg. cbn [find].
  assert (Hlook : forall file,
            lookup_file w base file = lookup_file w (os_path_join root base) file).
  { intros file. unfold lookup_file. rewrite Hsame. reflexivity. }
  rewrite !Hlook.
  destruct (lookup_file w (os_path_join root base) (lit "exp.d")) as [c1|];
    destruct (lookup_file w (os_path_join root base) (lit "rfac.d")) as [c2|];
    destruct (lookup_file w (os_path_join root base) (lit "tleed4.i")) as [c3|];
    destruct (lookup_file w (os_path_join root base) (lit "tleed5.i")) as [c4|];
    cbn;
    repeat match goal with
           | |- _ /\ _ => split
           | |- _ <-> _ => split
           end;
    intros;
    repeat match goal with H : _ /\ _ |- _ => destruct H end;
    try reflexivity; try congruence;
    try match goal with H : is_Some None |- _ => destruct (is_Some_None H) end;
    try match goal with
        | H : ~ is_Some (Some _) |- _ => exfalso; apply H; eexists; reflexivity
        end;
    repeat match goal with |- _ /\ _ => split end;
    eexists; reflexivity.
Qed.

End ReferenceFiles.

Lemma init_reference_files_witness :
  lookup_file (Sample.at_root (delete (lit "tleed4.i") Sample.reference))
    (lit "/root/ref") (lit "tleed4.i") = None
  /\ __init__ SampleInit.X_OK SampleInit.expanduser SampleInit.PATH SampleInit.info_s
       (lit "/root") (lit "/proc")
       (Sample.at_root (delete (lit "tleed4.i") Sample.reference))
     = Fail (Raised (InputError
               (lit "ERROR: input file (tleed4.i) is not found in (ref)"))).
Proof.
  split; [reflexivity|].
  refine (proj1 (proj2 (proj2
            (init_reference_files SampleInit.X_OK SampleInit.expanduser SampleInit.PATH
               SampleInit.info_s (lit "/root") (lit "/proc")
               (Sample.at_root (delete (lit "tleed4.i") Sample.reference))
               (VBool true) (lit "bin/satl1.exe") (lit "satl2.exe")
               (lit "/root/bin/satl1.exe") (lit "/usr/local/bin/satl2.exe") (lit "ref")
               eq_refl eq_refl eq_refl eq_refl eq_refl eq_refl eq_refl eq_refl))) _ _ _).
  - exists (lit "exp"). reflexivity.
  - exists (lit "rfac"). reflexivity.
  - intros [contents H]. hnf in H. discriminate H.
Defined.

(** C9, where the code departs from it.  On a machine without the first
    executable, a reference directory that lacks [tleed4.i] is not what
    [__init__] complains about: the error names the solver.  And when the
    process stands in [/proc] while [root_dir] is [/root], the directory
    [/root/ref], which [prepare] would copy, holds the four files, but
    [__init__] looks for [ref] from [/proc] and refuses [exp.d]. *)
Lemma init_missing_file_unnamed :
  (lookup_file (Sample.at_root (delete (lit "tleed4.i") Sample.reference))
     (lit "/root/ref") (lit "tleed4.i") = None
   /\ __init__ SampleInit.no_solver SampleInit.expanduser SampleInit.PATH
        SampleInit.info_s (lit "/root") (lit "/proc")
        (Sample.at_root (delete (lit "tleed4.i") Sample.reference))
      = Fail (Raised (InputError (lit "ERROR: solver (bin/satl1.exe) is not found")))
   /\ PyStr.contains (lit "tleed4.i")
        (lit "ERROR: solver (bin/satl1.exe) is not found") = false)
  /\ (os_path_join (lit "/root") (lit "ref") = lit "/root/ref"
      /\ lookup_file (Sample.at_proc Sample.reference) (lit "/root/ref") (lit "exp.d")
         = Some (lit "exp")
      /\ lookup_file (Sample.at_proc Sample.reference) (lit "/root/ref") (lit "rfac.d")
         = Some (lit "rfac")
      /\ lookup_file (Sample.at_proc Sample.reference) (lit "/root/ref") (lit "tleed4.i")
         = Some (lit "t4")
      /\ lookup_file (Sample.at_proc Sample.reference) (lit "/root/ref") (lit "tleed5.i")
         = Some Sample.template
      /\ __init__ SampleInit.X_OK SampleInit.expanduser SampleInit.PATH
           SampleInit.info_s (lit "/root") (lit "/proc")
           (Sample.at_proc Sample.reference)
         = Fail (Raised (InputError
                   (lit "ERROR: input file (exp.d) is not found in (ref)")))).
Proof. repeat split. Qed.

Example init_check_files_samples :
  init_check_files Sample.self (Sample.at_root Sample.reference)
  = (Sample.at_root Sample.reference, Ok tt)
  /\ init_check_files Sample.self
       (Sample.at_root (delete (lit "rfac.d") (delete (lit "tleed5.i") Sample.reference)))
     = (Sample.at_root (delete (lit "rfac.d") (delete (lit "tleed5.i") Sample.reference)),
        Raise (InputError (lit "ERROR: input file (rfac.d) is not found in (ref)"))).
Proof. split; reflexivity. Qed.

(** ** Running the executables ([run]) *)

Section Run.

Variable host : str -> option program.

(** One call of [_run_by_subprocess] whose executable exists. *)
Lemma run_by_subprocess_eq (command wd : str) (w : world)
    (files files' : gmap str str) (p : program) (status : Z) :
  work_dir w = Some wd ->
  dirs w !! resolve w wd = Some files ->
  host command = Some p ->
  p files = (files', status) ->
  _run_by_subprocess host command w =
  (add_call (command, resolve w wd)
     (set_dirs (<[resolve w wd := files']> (dirs w)) w),
   if (status =? 0)%Z then Ok tt else Raise CalledProcessError).
Proof.
  intros Hwd Hdir Hhost Hp.
  unfold _run_by_subprocess, self_work_dir, subprocess_run, mbind, M_bind.
  rewrite Hwd, Hdir, Hhost, Hp.
  destruct (status =? 0)%Z; reflexivity.
Qed.

(** C10.  When the first executable exits with a non-zero status, [run]
    returns normally, has printed its one line and has started no second
    command; when the first exits with zero and the second does not,
    [run] returns normally as well, with both commands started and the
    line printed. *)
Theorem run_swallows_failure (self : solver) (w : world) (wd : str)
    (files files1 : gmap str str) (p1 : program) (status1 : Z) :
  work_dir w = Some wd ->
  dirs w !! resolve w wd = Some files ->
  host (path_to_first_solver self) = Some p1 ->
  p1 files = (files1, status1) ->
  (status1 <> 0%Z ->
   snd (run host self w) = Ok tt
   /\ calls (fst (run host self w))
      = calls w ++ [(path_to_first_solver self, resolve w wd)]
   /\ stdout (fst (run host self w)) = stdout w ++ [run_failure_text])
  /\ (forall (p2 : program) (files2 : gmap str str) (status2 : Z),
        status1 = 0%Z ->
        host (path_to_second_solver self) = Some p2 ->
        p2 files1 = (files2, status2) ->
        status2 <> 0%Z ->
        snd (run host self w) = Ok tt
        /\ calls (fst (run host self w))
           = calls w ++ [(path_to_first_solver self, resolve w wd);
                         (path_to_second_solver self, resolve w wd)]
        /\ stdout (fst (run host self w)) = stdout w ++ [run_failure_text]).
Proof.
  intros Hwd Hdir Hhost1 Hp1.
  pose proof (run_by_subprocess_eq _ wd w files files1 p1 status1
                Hwd Hdir Hhost1 Hp1) as Hfirst.
  split.
  - intros Hfail. apply Z.eqb_neq in Hfail.
    unfold run, try_except, mbind, M_bind. rewrite Hfirst, Hfail.
    cbn. repeat split.
  - intros p2 files2 status2 -> Hhost2 Hp2 Hfail. apply Z.eqb_neq in Hfail.
    unfold run, try_except, mbind, M_bind. rewrite Hfirst. cbn [Z.eqb].
    rewrite (run_by_subprocess_eq _ wd _ files1 files2 p2 status2);
      [|exact Hwd|cbn; apply lookup_insert_eq|exact Hhost2|exact Hp2].
    rewrite Hfail. cbn. rewrite <- app_assoc. repeat split.
Qed.

End Run.

Lemma run_swallows_failure_witness :
  run (Sample.host 1 0) Sample.self Sample.empty_workspace
  = (add_stdout run_failure_text
       (add_call (lit "/bin/satl1.exe", Sample.wd)
          (Sample.world_of {[ lit "tleed.o" := lit "amplitudes" ]})),
     Ok tt)
  /\ snd (run (Sample.host 0 2) Sample.self Sample.empty_workspace) = Ok tt.
Proof.
  split; [reflexivity|].
  refine (proj1 (proj2 (run_swallows_failure (Sample.host 0 2) Sample.self
            Sample.empty_workspace Sample.wd ∅ {[ lit "tleed.o" := lit "amplitudes" ]}
            (Sample.writes (lit "tleed.o") (lit "amplitudes") 0) 0
            eq_refl _ _ _)
          (Sample.writes (lit "search.s") Sample.summary_ok 2)
          {[ lit "tleed.o" := lit "amplitudes"; lit "search.s" := Sample.summary_ok ]}
          2%Z eq_refl _ _ _)).
  - reflexivity.
  - reflexivity.
  - reflexivity.
  - reflexivity.
  - reflexivity.
  - discriminate.
Defined.

(** Other failures are not caught: a command that cannot be started ends
    [run] with the error. *)
Example run_missing_executable :
  snd (run (fun _ => None) Sample.self Sample.empty_workspace)
  = Raise FileNotFoundError.
Proof. reflexivity. Qed.

(** ** Preparing a workspace ([prepare]) *)

Section Prepare.

Lemma bind_ok {A B} (m : M A) (f : A -> M B) (w w' : world) (a : A) :
  m w = (w', Ok a) -> (m ≫= f) w = f a w'.
Proof. intros H. unfold mbind, M_bind. rewrite H. reflexivity. Qed.

Lemma bind_raise {A B} (m : M A) (f : A -> M B) (w w' : world) (e : exn) :
  m w = (w', Raise e) -> (m ≫= f) w = (w', Raise e).
Proof. intros H. unfold mbind, M_bind. rewrite H. reflexivity. Qed.

Lemma resolve_absolute (w : world) (p : str) :
  PyStr.startswith (lit "/") p = true -> resolve w p = p.
Proof.
  intros Hp. destruct p as [|c p]; [discriminate Hp|].
  unfold resolve, os_path_join. rewrite Hp. reflexivity.
Qed.

(** [prepare] step by step. *)
Lemma prepare_eq (self : solver) (msg : message) (w : world) :
  PyStr.startswith (lit "/") (cwd w) = true ->
  is_Some (dirs w !! cwd w) ->
  prepare self msg w =
  match dirs (named self msg w)
        !! resolve w (os_path_join (root_dir self) (path_to_base_dir self)) with
  | None => (named self msg w, Raise DistutilsFileError)
  | Some files =>
      let tree := files ∪ default ∅ (dirs (named self msg w) !! workspace_of self msg w) in
      match tree !! lit "tleed5.i" with
      | None => (entered self msg w tree, Raise FileNotFoundError)
      | Some contents =>
          (set_cwd (cwd w)
             (entered self msg w
                (<[lit "tleed5.i" :=
                     substitute 0 (x msg) (PyStr.translate_newlines contents)]> tree)),
           Ok tt)
      end
  end.
Proof.
  intros Habs Hcwd.
  unfold prepare.
  erewrite bind_ok by reflexivity.
  erewrite bind_ok by reflexivity.
  change (set_work_dir _ _) with (named self msg w).
  destruct (dirs (named self msg w) !! resolve w (os_path_join (root_dir self) (path_to_base_dir self))) as [files|] eqn:Hsrc.
  2:{ erewrite bind_raise; [reflexivity|]. unfold copy_tree.
      change (resolve (named self msg w)) with (resolve w). rewrite Hsrc. reflexivity. }
  erewrite bind_ok; [|unfold copy_tree; change (resolve (named self msg w)) with (resolve w); rewrite Hsrc; reflexivity].
  erewrite bind_ok by reflexivity.
  fold (workspace_of self msg w).
  set (tree := files ∪ default ∅ (dirs (named self msg w) !! workspace_of self msg w)).
  clearbody tree.
  erewrite bind_ok;
    [|unfold os_chdir; cbn [dirs set_dirs];
      change (resolve (set_dirs _ _) _) with (workspace_of self msg w);
      rewrite lookup_insert_eq; reflexivity].
  change (set_cwd (workspace_of self msg w) _) with (entered self msg w tree).
  change (cwd (set_dirs _ _)) with (cwd w).
  assert (Hhere : dirs (entered self msg w tree) !! cwd (entered self msg w tree) = Some tree)
    by apply lookup_insert_eq.
  unfold input_prepare, _write_fit_file.
  destruct (tree !! lit "tleed5.i") as [contents|] eqn:Htemplate; cbv zeta.
  - erewrite bind_ok.
    2:{ erewrite bind_ok.
        2:{ unfold open_read, lookup_file. cbn [resolve]. rewrite Hhere. unfold mbind, option_bind.
            rewrite Htemplate. reflexivity. }
        unfold open_write. cbn [resolve]. rewrite Hhere. reflexivity. }
    unfold os_chdir.
    rewrite resolve_absolute by exact Habs.
    assert (Hback : is_Some (dirs (named self msg w) !! cwd w)).
    { unfold named. cbn [dirs set_dirs set_work_dir].
      destruct (dirs w !! resolve w (folder_name (step msg) (set msg)));
        [exact Hcwd|]. apply lookup_insert_is_Some'. right. exact Hcwd. }
    cbn [dirs set_dirs entered set_cwd cwd].
    rewrite insert_insert_eq.
    destruct (<[workspace_of self msg w := _]> (dirs (named self msg w)) !! cwd w)
      as [here|] eqn:Hhere'; [reflexivity|].
    exfalso. apply (is_Some_None (A := gmap str str)). rewrite <- Hhere'.
    apply lookup_insert_is_Some'. right. exact Hback.
  - erewrite bind_raise; [reflexivity|].
    erewrite bind_raise; [reflexivity|].
    unfold open_read, lookup_file. cbn [resolve]. rewrite Hhere.
    unfold mbind, option_bind. rewrite Htemplate. reflexivity.
Qed.

End Prepare.

Section PrepareClaims.

(** The injection step in the workspace [prepare] has entered. *)
Lemma input_prepare_entered (self : solver) (msg : message) (w : world)
    (tree : gmap str str) :
  input_prepare msg (entered self msg w tree) =
  match tree !! lit "tleed5.i" with
  | None => (entered self msg w tree, Raise FileNotFoundError)
  | Some contents =>
      (entered self msg w
         (<[lit "tleed5.i" :=
              substitute 0 (x msg) (PyStr.translate_newlines contents)]> tree),
       Ok tt)
  end.
Proof.
  assert (Hhere : dirs (entered self msg w tree) !! cwd (entered self msg w tree)
                  = Some tree) by apply lookup_insert_eq.
  unfold input_prepare, _write_fit_file.
  destruct (tree !! lit "tleed5.i") as [contents|] eqn:Htemplate.
  - erewrite bind_ok.
    2:{ unfold open_read, lookup_file. cbn [resolve]. rewrite Hhere.
        unfold mbind, option_bind. rewrite Htemplate. reflexivity. }
    unfold open_write. cbn [resolve]. rewrite Hhere.
    cbn [dirs set_dirs entered set_cwd cwd]. rewrite insert_insert_eq. reflexivity.
  - erewrite bind_raise; [reflexivity|].
    unfold open_read, lookup_file. cbn [resolve]. rewrite Hhere.
    unfold mbind, option_bind. rewrite Htemplate. reflexivity.
Qed.

(** C3 (as amended).  Once the reference files are copied and the process
    has moved into the workspace, [prepare] goes back to the directory it
    started from when the injection step returns; when the injection step
    raises, the error reaches the caller and the process is still in the
    workspace. *)
Theorem prepare_restores_cwd_on_success (self : solver) (msg : message) (w : world)
    (files : gmap str str) :
  PyStr.startswith (lit "/") (cwd w) = true ->
  is_Some (dirs w !! cwd w) ->
  dirs (named self msg w)
    !! resolve w (os_path_join (root_dir self) (path_to_base_dir self)) = Some files ->
  match input_prepare msg
          (entered self msg w
             (files ∪ default ∅ (dirs (named self msg w) !! workspace_of self msg w))) with
  | (w1, Ok _) =>
      prepare self msg w = (set_cwd (cwd w) w1, Ok tt)
      /\ cwd (fst (prepare self msg w)) = cwd w
  | (w1, Raise e) =>
      prepare self msg w = (w1, Raise e)
      /\ cwd (fst (prepare self msg w)) = workspace_of self msg w
  end.
Proof.
  intros Habs Hcwd Hsrc.
  rewrite (prepare_eq self msg w Habs Hcwd), Hsrc. cbv zeta.
  rewrite input_prepare_entered.
  destruct (_ !! lit "tleed5.i"); split; reflexivity.
Qed.

Lemma prepare_restores_cwd_on_success_witness :
  prepare Sample.self Sample.msg (Sample.at_proc Sample.reference)
  = (mkWorld
       {[ Sample.root := ∅;
          Sample.ref := Sample.reference;
          Sample.proc := ∅;
          Sample.wd :=
            <[lit "tleed5.i" :=
                lit "   1.5000  -2.2500   DISPLACEMENTS" ++ [PyStr.LF]]>
              Sample.reference ]}
       Sample.proc (Some Sample.wd) [] [],
     Ok tt)
  /\ cwd (fst (prepare Sample.self Sample.msg (Sample.at_proc Sample.reference)))
     = cwd (Sample.at_proc Sample.reference).
Proof.
  pose proof (prepare_restores_cwd_on_success Sample.self Sample.msg
                (Sample.at_proc Sample.reference) Sample.reference
                eq_refl (ex_intro _ ∅ eq_refl) eq_refl) as H.
  hnf in H. split; [reflexivity|exact (proj2 H)].
Defined.

(** C3 fails as stated: with [tleed5.i] gone from the reference directory
    the injection step raises and [prepare] leaves the process in the
    workspace. *)
Lemma prepare_leaves_cwd_on_error :
  cwd (Sample.at_proc (delete (lit "tleed5.i") Sample.reference)) = lit "/proc"
  /\ snd (prepare Sample.self Sample.msg
            (Sample.at_proc (delete (lit "tleed5.i") Sample.reference)))
     = Raise FileNotFoundError
  /\ cwd (fst (prepare Sample.self Sample.msg
                 (Sample.at_proc (delete (lit "tleed5.i") Sample.reference))))
     = lit "/proc/Log00000003_00000007".
Proof. repeat split. Qed.

End PrepareClaims.

(** ** Replacing text *)

Section Replace.

Import PyStr.

Variables old new : str.

Lemma replace_from_skip (a : str) : forall rest : str,
  replace_from old new (length a) (a ++ rest) = replace_from old new 0 rest.
Proof.
  induction a as [|c a IH]; intros rest.
  - destruct rest; reflexivity.
  - cbn [length app replace_from]. apply IH.
Qed.

Lemma replace_from_hit (rest : str) :
  old <> [] ->
  replace_from old new 0 (old ++ rest) = new ++ replace_from old new 0 rest.
Proof.
  intros Hold. pose proof (startswith_app old rest) as Hstart.
  destruct old as [|c old'] eqn:E; [congruence|].
  cbn [app replace_from] in *. rewrite Hstart. f_equal.
  cbn [length Nat.pred]. rewrite <- E. apply replace_from_skip.
Qed.

Lemma replace_from_clear (a : str) : forall rest : str,
  clear_before old a rest = true ->
  replace_from old new 0 (a ++ rest) = a ++ replace_from old new 0 rest.
Proof.
  induction a as [|c a IH]; intros rest Hclear; [reflexivity|].
  cbn [clear_before] in Hclear. apply andb_prop in Hclear as [Hhere Hclear].
  apply negb_true_iff in Hhere.
  cbn [app replace_from] in *. rewrite Hhere. f_equal. apply IH, Hclear.
Qed.

Lemma replace_from_nil : replace_from old new 0 [] = [].
Proof. reflexivity. Qed.

Lemma contains_clear (a : str) : forall rest : str,
  clear_before old a rest = true ->
  contains old (a ++ rest) = contains old rest.
Proof.
  induction a as [|c a IH]; intros rest Hclear; [reflexivity|].
  cbn [clear_before] in Hclear. apply andb_prop in Hclear as [Hhere Hclear].
  apply negb_true_iff in Hhere.
  cbn [app contains] in *. rewrite Hhere. apply IH, Hclear.
Qed.

(** Replacing keeps a property that holds of every character of the text
    and of the replacement. *)
Lemma replace_from_forallb (P : ascii -> bool) (s : str) : forall skip : nat,
  forallb P new = true -> forallb P s = true ->
  forallb P (replace_from old new skip s) = true.
Proof.
  induction s as [|c s IH]; intros skip Hnew Hs; [reflexivity|].
  cbn [forallb] in Hs. apply andb_prop in Hs as [Hc Hs].
  cbn [replace_from]. destruct skip as [|k]; [|apply IH; assumption].
  destruct (startswith old (c :: s)).
  - rewrite forallb_app, Hnew. apply IH; assumption.
  - cbn [forallb]. rewrite Hc. apply IH; assumption.
Qed.

End Replace.

(** ** Tokens, fields and templates *)

Section Tokens.

Import PyStr PyInt.

Lemma token_eq (idx : nat) :
  token idx = "o"%char :: "p"%char :: "t"%char :: zfill 4 (str_of_N (N.of_nat idx)).
Proof. reflexivity. Qed.

Lemma startswith_app_l (p q : str) : forall s : str,
  startswith (p ++ q) s = true -> startswith p s = true.
Proof.
  induction p as [|c p IH]; intros s H; [reflexivity|].
  destruct s as [|d s]; [discriminate H|].
  cbn [app startswith] in *. destruct (Ascii.eqb c d); [apply IH, H|discriminate H].
Qed.

Lemma startswith_false_app_l (p q s : str) :
  startswith p s = false -> startswith (p ++ q) s = false.
Proof.
  intros H. destruct (startswith (p ++ q) s) eqn:E; [|reflexivity].
  apply startswith_app_l in E. congruence.
Qed.

Lemma clear_before_app_l (p q : str) (a : str) : forall rest : str,
  clear_before p a rest = true -> clear_before (p ++ q) a rest = true.
Proof.
  induction a as [|c a IH]; intros rest H; [reflexivity|].
  cbn [clear_before] in *. apply andb_prop in H as [Hhere H].
  apply negb_true_iff in Hhere.
  rewrite (startswith_false_app_l p q _ Hhere). cbn [negb andb]. apply IH, H.
Qed.

(** Text without [opt], followed by something that cannot complete one. *)
Lemma clear_opt_chunk (a : str) : forall rest : str,
  opt_free a = true -> head_ok rest = true ->
  clear_before (lit "opt") a rest = true.
Proof.
  unfold opt_free. induction a as [|c a IH]; intros rest Ha Hrest; [reflexivity|].
  apply negb_true_iff in Ha. cbn [contains] in Ha.
  apply orb_false_elim in Ha as [Hhere Ha].
  cbn [clear_before]. rewrite IH by (try apply negb_true_iff; assumption).
  rewrite andb_true_r. apply negb_true_iff.
  cbn [lit list_ascii_of_string app startswith] in Hhere |- *.
  destruct (Ascii.eqb "o" c); [|reflexivity].
  destruct a as [|d a].
  - destruct rest as [|r rest]; [reflexivity|]. cbn [app head_ok] in *.
    destruct (Ascii.eqb "p" r) eqn:E; [|reflexivity].
    apply Ascii.eqb_eq in E. subst r. discriminate Hrest.
  - cbn [app]. destruct (Ascii.eqb "p" d); [|reflexivity].
    destruct a as [|e a].
    + destruct rest as [|r rest]; [reflexivity|]. cbn [app head_ok] in *.
      destruct (Ascii.eqb "t" r) eqn:E; [|reflexivity].
      apply Ascii.eqb_eq in E. subst r. discriminate Hrest.
    + cbn [app]. destruct (Ascii.eqb "t" e); [discriminate Hhere|reflexivity].
Qed.

(** No match of a text that begins with [o] starts inside text without
    [o]. *)
Lemma clear_o (p a : str) : forall rest : str,
  forallb not_o a = true ->
  clear_before ("o"%char :: p) a rest = true.
Proof.
  induction a as [|c a IH]; intros rest Ha; [reflexivity|].
  cbn [forallb] in Ha. apply andb_prop in Ha as [Hc Ha].
  cbn [clear_before app startswith]. rewrite IH by exact Ha.
  unfold not_o in Hc. rewrite Ascii.eqb_sym in Hc.
  apply negb_true_iff in Hc. rewrite Hc. reflexivity.
Qed.

Lemma plain_char_not_opt (c : ascii) :
  plain_char c = true ->
  not_o c = true /\ Ascii.eqb c "p"%char = false /\ Ascii.eqb c "t"%char = false.
Proof.
  intros H. unfold not_o.
  repeat split; try apply negb_true_iff;
    (destruct (Ascii.eqb c _) eqn:E; [|reflexivity]);
    apply Ascii.eqb_eq in E; subst c; discriminate H.
Qed.

Lemma plain_not_o (field : str) : forallb plain_char field = true -> forallb not_o field = true.
Proof.
  induction field as [|c f IH]; [reflexivity|]. cbn [forallb]. intros H.
  apply andb_prop in H as [Hc H].
  rewrite (proj1 (plain_char_not_opt c Hc)). apply IH, H.
Qed.

Lemma plain_head_ok (field rest : str) : plain field = true -> head_ok (field ++ rest) = true.
Proof.
  destruct field as [|c f]; [discriminate|]. cbn [plain forallb app head_ok].
  intros H. apply andb_prop in H as [Hc _].
  destruct (plain_char_not_opt c Hc) as [_ [-> ->]]. reflexivity.
Qed.

Lemma digit_plain (c : ascii) : is_digit c = true -> plain_char c = true.
Proof. intros H. unfold plain_char. rewrite H. reflexivity. Qed.

Lemma digits_plain (s : str) : forallb is_digit s = true -> forallb plain_char s = true.
Proof.
  induction s as [|c s IH]; [reflexivity|]. cbn [forallb]. intros H.
  apply andb_prop in H as [Hc H]. rewrite (digit_plain c Hc). apply IH, H.
Qed.

End Tokens.

Section TokenNames.

Import PyStr PyInt.

Lemma digits_fuel_short (f : nat) : forall (k : nat) (n : N) (acc : str),
  (1 <= k)%nat -> n < 10 ^ N.of_nat k ->
  (length (digits_fuel f n acc) <= k + length acc)%nat.
Proof.
  induction f as [|f IH]; intros k n acc Hk Hn; [cbn; lia|].
  rewrite digits_fuel_S. destruct (n <? 10) eqn:Hlt; [cbn [length]; lia|].
  apply N.ltb_ge in Hlt.
  destruct k as [|[|k]]; [lia| cbn in Hn; lia |].
  specialize (IH (S k) (n / 10) (digit_char (n mod 10) :: acc)).
  cbn [length] in IH. etransitivity; [apply IH; [lia|]|lia].
  rewrite (Nat2N.inj_succ (S k)), N.pow_succ_r' in Hn.
  apply N.Div0.div_lt_upper_bound. exact Hn.
Qed.

Lemma str_of_N_short (n : N) : n < 10000 -> (length (str_of_N n) <= 4)%nat.
Proof.
  intros Hn. pose proof (digits_fuel_short (S (N.to_nat (N.size n))) 4 n []) as H.
  cbn [length] in H. unfold str_of_N. rewrite Nat.add_0_r in H. apply H; [lia|exact Hn].
Qed.

Lemma rjust_length (w : nat) (c : ascii) (s : str) :
  length (rjust w c s) = Nat.max w (length s).
Proof. unfold rjust. rewrite length_app, repeat_length. lia. Qed.

Lemma zfill4_length (n : N) : n < 10000 -> length (zfill 4 (str_of_N n)) = 4%nat.
Proof.
  intros Hn. unfold zfill. rewrite rjust_length.
  pose proof (str_of_N_short n Hn). lia.
Qed.

Lemma startswith_same_length (p : str) : forall q rest : str,
  length p = length q -> startswith p (q ++ rest) = true -> p = q.
Proof.
  induction p as [|c p IH]; intros [|d q] rest Hlen H; try discriminate Hlen; [reflexivity|].
  cbn [app startswith] in H. destruct (Ascii.eqb c d) eqn:E; [|discriminate H].
  apply Ascii.eqb_eq in E. subst d. f_equal.
  apply (IH q rest); [cbn in Hlen; lia|exact H].
Qed.

(** Two tokens of four digits are the same text only for the same index. *)
Lemma token_startswith_inj (i j : nat) (rest : str) :
  N.of_nat i < 10000 -> N.of_nat j < 10000 ->
  startswith (token i) (token j ++ rest) = true -> i = j.
Proof.
  intros Hi Hj H. rewrite !token_eq in H. cbn [app startswith] in H.
  rewrite !Ascii.eqb_refl in H.
  apply startswith_same_length in H; [|rewrite !zfill4_length by assumption; reflexivity].
  apply (f_equal value_of) in H.
  rewrite !value_of_zfill, !value_of_str_of_N in H. lia.
Qed.

Lemma token_all_digits (j : nat) :
  forallb is_digit (zfill 4 (str_of_N (N.of_nat j))) = true.
Proof. apply zfill_all_digits, str_of_N_all_digits. Qed.

(** No other token begins inside a token. *)
Lemma clear_token_token (i j : nat) (rest : str) :
  N.of_nat i < 10000 -> N.of_nat j < 10000 -> i <> j ->
  clear_before (token i) (token j) rest = true.
Proof.
  intros Hi Hj Hne.
  assert (Hstart : startswith (token i) (token j ++ rest) = false).
  { destruct (startswith (token i) (token j ++ rest)) eqn:E; [|reflexivity].
    exfalso. apply Hne. exact (token_startswith_inj i j rest Hi Hj E). }
  rewrite (token_eq j) in Hstart |- *.
  cbn [clear_before]. rewrite Hstart. cbn [negb andb].
  rewrite (token_eq i). apply clear_o.
  change (forallb not_o (zfill 4 (str_of_N (N.of_nat j))) = true).
  apply plain_not_o, digits_plain, token_all_digits.
Qed.

Lemma token_nonempty (i : nat) : token i <> [].
Proof. rewrite token_eq. discriminate. Qed.

Lemma token_head_ok (j : nat) (rest : str) : head_ok (token j ++ rest) = true.
Proof. rewrite token_eq. reflexivity. Qed.

End TokenNames.

Section Fields.

Import PyStr PyInt.

Lemma repeat_forallb (P : ascii -> bool) (c : ascii) (k : nat) :
  P c = true -> forallb P (repeat c k) = true.
Proof. intros Hc. induction k as [|k IH]; [reflexivity|]. cbn. rewrite Hc. exact IH. Qed.

Lemma fixed4_plain (num : N) (den : positive) : forallb plain_char (fixed4 num den) = true.
Proof.
  unfold fixed4. rewrite forallb_app. cbn [forallb].
  rewrite !digits_plain by (try apply zfill_all_digits; apply str_of_N_all_digits).
  reflexivity.
Qed.

Lemma format_7_4f_chars (v : pyfloat) : forallb plain_char (format_7_4f v) = true.
Proof.
  unfold format_7_4f, rjust. rewrite forallb_app.
  rewrite repeat_forallb by reflexivity.
  destruct v as [neg num den|neg|]; [|destruct neg; reflexivity|reflexivity].
  rewrite forallb_app, fixed4_plain. destruct neg; reflexivity.
Qed.

Lemma format_7_4f_length (v : pyfloat) : (7 <= length (format_7_4f v))%nat.
Proof. unfold format_7_4f. rewrite rjust_length. lia. Qed.

Lemma format_7_4f_plain (v : pyfloat) : plain (format_7_4f v) = true.
Proof.
  pose proof (format_7_4f_length v) as Hlen. pose proof (format_7_4f_chars v) as Hchars.
  unfold plain. destruct (format_7_4f v); [cbn in Hlen; lia|exact Hchars].
Qed.

End Fields.

Section Substitution.

Import PyStr PyInt.

Lemma replace_token (i : nat) (field s : str) :
  replace (token i) field s = replace_from (token i) field 0 s.
Proof. rewrite token_eq. reflexivity. Qed.

Lemma clear_token_chunk (i : nat) (a rest : str) :
  opt_free a = true -> head_ok rest = true ->
  clear_before (token i) a rest = true.
Proof.
  intros Ha Hrest. change (token i) with (lit "opt" ++ zfill 4 (str_of_N (N.of_nat i))).
  apply clear_before_app_l, clear_opt_chunk; assumption.
Qed.

Lemma clear_token_plain (i : nat) (field rest : str) :
  plain field = true -> clear_before (token i) field rest = true.
Proof.
  intros Hf. rewrite token_eq. apply clear_o, plain_not_o.
  destruct field; [discriminate Hf|exact Hf].
Qed.

Lemma slot_head_ok (i : nat) (s : slot) (rest : str) :
  slot_ok i s = true -> head_ok (slot_text s ++ rest) = true.
Proof.
  destruct s as [j|field]; intros Hs; [apply token_head_ok|apply plain_head_ok, Hs].
Qed.

(** One round of the loop on a template. *)
Lemma replace_render (i : nat) (field : str) (rest : list (slot * str)) : forall head : str,
  opt_free head = true -> pieces_ok i rest = true ->
  replace (token i) field (render head rest)
  = render head (on_slots (fill_one i field) rest).
Proof.
  intros head. rewrite replace_token. revert head.
  induction rest as [|[s chunk] rest IH]; intros head Hhead Hrest.
  - cbn [render on_slots map]. rewrite <- (app_nil_r head) at 1.
    rewrite replace_from_clear by (apply clear_token_chunk; [exact Hhead|reflexivity]).
    cbn [replace_from]. apply app_nil_r.
  - cbn [pieces_ok forallb fst snd] in Hrest.
    apply andb_prop in Hrest as [Hpiece Hrest].
    apply andb_prop in Hpiece as [Hs Hchunk].
    cbn [render on_slots map fst snd].
    rewrite replace_from_clear
      by (apply clear_token_chunk; [exact Hhead|exact (slot_head_ok i s _ Hs)]).
    f_equal. specialize (IH chunk Hchunk Hrest).
    destruct s as [j|f]; cbn [slot_text fill_one slot_ok] in *.
    + apply andb_prop in Hs as [Hij Hj].
      apply Nat.leb_le in Hij. apply N.ltb_lt in Hj.
      destruct (j =? i)%nat eqn:E.
      * apply Nat.eqb_eq in E. subst j. cbn [slot_text].
        rewrite replace_from_hit by apply token_nonempty. f_equal. exact IH.
      * apply Nat.eqb_neq in E. cbn [slot_text].
        rewrite replace_from_clear by (apply clear_token_token; lia).
        f_equal. exact IH.
    + rewrite replace_from_clear by (apply clear_token_plain, Hs).
      f_equal. exact IH.
Qed.

Lemma fill_one_ok (i : nat) (v : pyfloat) (s : slot) :
  slot_ok i s = true -> slot_ok (S i) (fill_one i (format_7_4f v) s) = true.
Proof.
  destruct s as [j|f]; cbn [slot_ok fill_one]; [|trivial].
  intros H. apply andb_prop in H as [Hij Hj]. apply Nat.leb_le in Hij.
  destruct (j =? i)%nat eqn:E; cbn [slot_ok]; [apply format_7_4f_plain|].
  apply Nat.eqb_neq in E. rewrite Hj, andb_true_r. apply Nat.leb_le. lia.
Qed.

Lemma fill_step (i : nat) (v : pyfloat) (vs : list pyfloat) (s : slot) :
  slot_ok i s = true ->
  fill_from (S i) vs (fill_one i (format_7_4f v) s) = fill_from i (v :: vs) s.
Proof.
  destruct s as [j|f]; cbn [slot_ok fill_one fill_from]; [|trivial].
  intros H. apply andb_prop in H as [Hij _]. apply Nat.leb_le in Hij.
  destruct (j =? i)%nat eqn:E.
  - apply Nat.eqb_eq in E. subst j. rewrite Nat.sub_diag. reflexivity.
  - apply Nat.eqb_neq in E. cbn [fill_from].
    replace (j - i)%nat with (S (j - S i)) by lia. reflexivity.
Qed.

Lemma pieces_ok_step (i : nat) (v : pyfloat) (rest : list (slot * str)) :
  pieces_ok i rest = true ->
  pieces_ok (S i) (on_slots (fill_one i (format_7_4f v)) rest) = true
  /\ forall vs, on_slots (fill_from (S i) vs) (on_slots (fill_one i (format_7_4f v)) rest)
                = on_slots (fill_from i (v :: vs)) rest.
Proof.
  induction rest as [|[s chunk] rest IH]; intros H; [split; reflexivity|].
  cbn [pieces_ok forallb fst snd] in H. apply andb_prop in H as [Hpiece H].
  apply andb_prop in Hpiece as [Hs Hchunk]. destruct (IH H) as [IH1 IH2].
  split.
  - cbn [pieces_ok on_slots map forallb fst snd].
    rewrite (fill_one_ok i v s Hs), Hchunk. exact IH1.
  - intros vs. cbn [on_slots map fst snd]. rewrite (fill_step i v vs s Hs).
    f_equal. apply IH2.
Qed.

Lemma fill_from_nil (i : nat) (rest : list (slot * str)) :
  on_slots (fill_from i []) rest = rest.
Proof.
  induction rest as [|[[j|f] chunk] rest IH]; [reflexivity| |];
    cbn [on_slots map fill_from fst snd];
    [rewrite lookup_nil|]; f_equal; exact IH.
Qed.

(** The whole loop on a template: every token whose index the vector
    covers becomes the field of its value, nothing else changes. *)
Lemma substitute_render (variables : list pyfloat) :
  forall (i : nat) (head : str) (rest : list (slot * str)),
  opt_free head = true -> pieces_ok i rest = true ->
  substitute i variables (render head rest)
  = render head (on_slots (fill_from i variables) rest).
Proof.
  induction variables as [|v vs IH]; intros i head rest Hhead Hrest.
  - cbn [substitute]. rewrite fill_from_nil. reflexivity.
  - cbn [substitute]. rewrite replace_render by assumption.
    destruct (pieces_ok_step i v rest Hrest) as [Hok Hfill].
    rewrite IH by assumption. rewrite Hfill. reflexivity.
Qed.

End Substitution.

(** ** Injection ([_write_fit_file]) *)

Section Filled.

Import PyStr PyInt.

(** A template whose slots are all fields holds no [opt]. *)
Lemma render_fields_opt_free (rest : list (slot * str)) : forall head : str,
  opt_free head = true ->
  forallb (fun p => is_Val p.1 && plain (slot_text p.1) && opt_free p.2) rest = true ->
  contains (lit "opt") (render head rest) = false.
Proof.
  induction rest as [|[s chunk] rest IH]; intros head Hhead Hrest.
  - cbn [render]. apply negb_true_iff. exact Hhead.
  - cbn [forallb fst snd] in Hrest. apply andb_prop in Hrest as [Hpiece Hrest].
    apply andb_prop in Hpiece as [Hs Hchunk]. apply andb_prop in Hs as [_ Hs].
    cbn [render].
    rewrite contains_clear by (apply clear_opt_chunk; [exact Hhead|apply plain_head_ok, Hs]).
    rewrite contains_clear.
    + apply IH; assumption.
    + apply clear_o, plain_not_o. destruct (slot_text s); [discriminate Hs|exact Hs].
Qed.

Lemma has_placeholder_opt (s : str) :
  contains (lit "opt") s = false -> has_placeholder s = false.
Proof.
  induction s as [|c s IH]; intros H.
  - reflexivity.
  - cbn [contains] in H. apply orb_false_elim in H as [Hhere H].
    cbn [has_placeholder]. rewrite Hhere, (IH H). reflexivity.
Qed.

End Filled.

Section FieldFormat.

Import PyStr PyInt.

(** The field of a finite value is a field of the fixed-column format
    that shows the value rounded to four decimals, ties to even. *)
Lemma format_7_4f_field (neg : bool) (num : N) (den : positive) :
  F7_4_field neg (round_half_even (num * 10000) den) (format_7_4f (FFin neg num den)).
Proof.
  set (d := round_half_even (num * 10000) den).
  set (body := sign_chars neg ++ fixed4 num den).
  exists (repeat " "%char (7 - length body)),
         (str_of_N (d / 10000)), (zfill 4 (str_of_N (d mod 10000))).
  assert (Hmod : d mod 10000 < 10000) by (apply N.mod_lt; discriminate).
  repeat split.
  - apply repeat_forallb. reflexivity.
  - apply str_of_N_nonempty.
  - apply str_of_N_all_digits.
  - apply zfill4_length, Hmod.
  - apply zfill_all_digits, str_of_N_all_digits.
  - rewrite value_of_zfill, !value_of_str_of_N.
    rewrite (N.div_mod d 10000) at 3 by discriminate. lia.
  - apply format_7_4f_length.
  - intros Hpad. unfold format_7_4f, rjust. fold body.
    rewrite length_app, repeat_length.
    destruct (7 - length body)%nat eqn:E; [exfalso; apply Hpad; reflexivity|lia].
Qed.

End FieldFormat.

Section WriteFitFile.

Import PyStr PyInt.

Lemma write_fit_file_eq (variables : list pyfloat) (w : world)
    (files : gmap str str) (raw : str) :
  dirs w !! cwd w = Some files ->
  files !! lit "tleed5.i" = Some raw ->
  _write_fit_file variables w
  = (with_template (substitute 0 variables (translate_newlines raw)) files w, Ok tt).
Proof.
  intros Hdir Hfile. unfold _write_fit_file.
  erewrite bind_ok.
  2:{ unfold open_read, lookup_file. cbn [resolve]. rewrite Hdir.
      unfold mbind, option_bind. rewrite Hfile. reflexivity. }
  unfold open_write. cbn [resolve]. rewrite Hdir. reflexivity.
Qed.

Lemma fresh_pieces_ok (rest : list (nat * str)) :
  forallb (fun p => (N.of_nat p.1 <? 10000) && opt_free p.2) rest = true ->
  pieces_ok 0 (fresh rest) = true.
Proof.
  induction rest as [|[j chunk] rest IH]; [reflexivity|].
  cbn [forallb fresh map pieces_ok slot_ok fst snd Nat.leb andb].
  intros H. apply andb_prop in H as [-> H]. exact (IH H).
Qed.

(** The text the loop makes of a fresh template. *)
Lemma substitute_fresh (variables : list pyfloat) (head : str) (rest : list (nat * str)) :
  opt_free head = true ->
  forallb (fun p => (N.of_nat p.1 <? 10000) && opt_free p.2) rest = true ->
  substitute 0 variables (render head (fresh rest)) = filled variables head rest.
Proof.
  intros Hhead Hrest. apply substitute_render; [exact Hhead|].
  apply fresh_pieces_ok, Hrest.
Qed.

Lemma filled_with_fields (variables : list pyfloat) (head : str) (rest : list (nat * str)) :
  Forall (fun p => (p.1 < length variables)%nat) rest ->
  filled variables head rest = with_fields variables head rest.
Proof.
  intros Hrest. unfold filled, with_fields, on_slots, fresh. f_equal.
  rewrite map_map.
  induction Hrest as [|[j chunk] rest Hj _ IH]; [reflexivity|].
  cbn [map fill_from fst snd] in *. rewrite Nat.sub_0_r.
  rewrite IH. f_equal. f_equal.
  destruct (lookup_lt_is_Some_2 variables j Hj) as [v Hv].
  rewrite Hv. rewrite (nth_lookup_Some _ _ FNan _ Hv). reflexivity.
Qed.

Lemma with_fields_no_placeholder (variables : list pyfloat) (head : str)
    (rest : list (nat * str)) :
  opt_free head = true -> forallb (fun p => opt_free p.2) rest = true ->
  has_placeholder (with_fields variables head rest) = false.
Proof.
  intros Hhead Hrest. apply has_placeholder_opt, render_fields_opt_free; [exact Hhead|].
  induction rest as [|[j chunk] rest IH]; [reflexivity|].
  cbn [forallb map fst snd is_Val slot_text] in *.
  apply andb_prop in Hrest as [-> Hrest].
  rewrite format_7_4f_plain. exact (IH Hrest).
Qed.

End WriteFitFile.

Section InjectionClaims.

Import PyStr PyInt.

Lemma translate_newlines_no_CR (s : str) : forallb not_CR (translate_newlines s) = true.
Proof.
  assert (H : forall n s, (length s <= n)%nat -> forallb not_CR (translate_newlines s) = true).
  { clear s. induction n as [|n IH]; intros [|c s] Hlen; try reflexivity; [cbn in Hlen; lia|].
    cbn [translate_newlines length] in *.
    destruct (Ascii.eqb c CR) eqn:E.
    - destruct s as [|d s]; [reflexivity|].
      destruct (Ascii.eqb d LF); cbn [forallb]; apply IH; cbn [length] in *; lia.
    - cbn [forallb]. unfold not_CR at 1. rewrite E. apply IH. lia. }
  exact (H (length s) s (Nat.le_refl _)).
Qed.

Lemma translate_newlines_id (s : str) :
  forallb not_CR s = true -> translate_newlines s = s.
Proof.
  induction s as [|c s IH]; [reflexivity|]. cbn [forallb translate_newlines].
  intros H. apply andb_prop in H as [Hc H]. unfold not_CR in Hc.
  apply negb_true_iff in Hc. rewrite Hc. f_equal. exact (IH H).
Qed.

Lemma plain_char_not_CR (c : ascii) : plain_char c = true -> not_CR c = true.
Proof.
  intros H. unfold not_CR. destruct (Ascii.eqb c CR) eqn:E; [|reflexivity].
  apply Ascii.eqb_eq in E. subst c. discriminate H.
Qed.

Lemma format_7_4f_no_CR (v : pyfloat) : forallb not_CR (format_7_4f v) = true.
Proof.
  pose proof (format_7_4f_chars v) as H.
  induction (format_7_4f v) as [|c s IH]; [reflexivity|].
  cbn [forallb] in *. apply andb_prop in H as [Hc H].
  rewrite (plain_char_not_CR c Hc). exact (IH H).
Qed.

Lemma substitute_no_CR (variables : list pyfloat) : forall (i : nat) (s : str),
  forallb not_CR s = true -> forallb not_CR (substitute i variables s) = true.
Proof.
  induction variables as [|v vs IH]; intros i s Hs; [exact Hs|].
  cbn [substitute]. apply IH. rewrite replace_token.
  apply replace_from_forallb; [apply format_7_4f_no_CR|exact Hs].
Qed.

Lemma fill_from_ok (variables : list pyfloat) (s : slot) :
  slot_ok 0 s = true -> slot_ok 0 (fill_from 0 variables s) = true.
Proof.
  destruct s as [j|f]; cbn [fill_from]; [|trivial].
  destruct (variables !! (j - 0)%nat); [|trivial].
  intros _. apply format_7_4f_plain.
Qed.

Lemma fill_from_twice (variables : list pyfloat) (s : slot) :
  fill_from 0 variables (fill_from 0 variables s) = fill_from 0 variables s.
Proof.
  destruct s as [j|f]; cbn [fill_from]; [|reflexivity].
  destruct (variables !! (j - 0)%nat) eqn:E; cbn [fill_from]; [reflexivity|].
  rewrite E. reflexivity.
Qed.

Lemma on_slots_fill_from (variables : list pyfloat) (rest : list (slot * str)) :
  pieces_ok 0 rest = true ->
  pieces_ok 0 (on_slots (fill_from 0 variables) rest) = true
  /\ on_slots (fill_from 0 variables) (on_slots (fill_from 0 variables) rest)
     = on_slots (fill_from 0 variables) rest.
Proof.
  unfold pieces_ok, on_slots.
  induction rest as [|[s chunk] rest IH]; [split; reflexivity|].
  cbn [map forallb fst snd]. intros H. apply andb_prop in H as [Hpiece H].
  apply andb_prop in Hpiece as [Hs Hchunk]. destruct (IH H) as [IH1 IH2].
  rewrite (fill_from_ok variables s Hs), Hchunk, IH1, IH2, fill_from_twice.
  split; reflexivity.
Qed.

(** A second pass of the loop finds nothing to replace. *)
Lemma substitute_filled (variables : list pyfloat) (head : str) (rest : list (nat * str)) :
  opt_free head = true ->
  forallb (fun p => (N.of_nat p.1 <? 10000) && opt_free p.2) rest = true ->
  substitute 0 variables (filled variables head rest) = filled variables head rest.
Proof.
  intros Hhead Hrest. unfold filled.
  destruct (on_slots_fill_from variables (fresh rest) (fresh_pieces_ok rest Hrest))
    as [Hok Hsame].
  rewrite substitute_render by assumption. rewrite Hsame. reflexivity.
Qed.

End InjectionClaims.

Section InjectionTheorems.

Import PyStr PyInt.

(** C6 (as amended).  Take at most 10000 finite parameters and a
    template made of text without [opt] and of exactly the tokens
    [opt0000] to [opt{N-1}], each as often as it likes.  Then [_write_fit_file] rewrites [tleed5.i] to
    the same text with, in place of every token, the field of its
    parameter; no placeholder is left; and every field shows its value
    rounded to four decimals, four digits behind the point,
    right-justified in seven columns or wider when the number needs
    more. *)
Theorem write_fit_file_fills_tokens (variables : list pyfloat) (head : str)
    (rest : list (nat * str)) (w : world) (files : gmap str str) (raw : str) :
  N.of_nat (length variables) <= 10000 ->
  (forall j : nat, In j (map fst rest) <-> (j < length variables)%nat) ->
  opt_free head = true ->
  forallb (fun p => opt_free p.2) rest = true ->
  forallb is_finite variables = true ->
  dirs w !! cwd w = Some files ->
  files !! lit "tleed5.i" = Some raw ->
  translate_newlines raw = render head (fresh rest) ->
  _write_fit_file variables w
  = (with_template (with_fields variables head rest) files w, Ok tt)
  /\ has_placeholder (with_fields variables head rest) = false
  /\ Forall (fun v => exists neg num den,
                 v = FFin neg num den
                 /\ F7_4_field neg (round_half_even (num * 10000) den) (format_7_4f v))
       variables.
Proof.
  intros Hmax Htokens Hhead Hrest Hfinite Hdir Hfile Hraw.
  assert (Hidx : Forall (fun p => (p.1 < length variables)%nat) rest).
  { apply List.Forall_forall. intros p Hp.
    apply Htokens. exact (in_map fst rest p Hp). }
  assert (Hok : forallb (fun p => (N.of_nat p.1 <? 10000) && opt_free p.2) rest = true).
  { clear -Hidx Hrest Hmax. induction Hidx as [|p rest Hp _ IH]; [reflexivity|].
    cbn [forallb] in *. apply andb_prop in Hrest as [-> Hrest].
    rewrite (IH Hrest), !andb_true_r. apply N.ltb_lt. lia. }
  split; [|split].
  - rewrite (write_fit_file_eq variables w files raw Hdir Hfile), Hraw.
    rewrite substitute_fresh by assumption.
    rewrite filled_with_fields by exact Hidx. reflexivity.
  - apply with_fields_no_placeholder; assumption.
  - clear -Hfinite. induction variables as [|v vs IH]; [constructor|].
    cbn [forallb] in Hfinite. apply andb_prop in Hfinite as [Hv Hvs].
    constructor; [|exact (IH Hvs)].
    destruct v as [neg num den| |]; try discriminate Hv.
    exists neg, num, den. split; [reflexivity|apply format_7_4f_field].
Qed.

Lemma write_fit_file_fills_tokens_witness :
  _write_fit_file (x Sample.msg) (Sample.inside Sample.template)
  = (Sample.inside (lit "   1.5000  -2.2500   DISPLACEMENTS" ++ [LF]), Ok tt)
  /\ has_placeholder (lit "   1.5000  -2.2500   DISPLACEMENTS" ++ [LF]) = false.
Proof.
  destruct (write_fit_file_fills_tokens (x Sample.msg) Sample.head Sample.rest
              (Sample.inside Sample.template)
              {[ lit "tleed5.i" := Sample.template ]} Sample.template)
    as [Hrun [Hnone _]];
    [cbn; lia| |reflexivity..|].
  - intros j. cbn. split.
    + intros [<-|[<-|[]]]; lia.
    + intros Hj. destruct j as [|[|j]]; [left|right; left|lia]; reflexivity.
  - split; [exact Hrun|exact Hnone].
Defined.

(** C6 fails as stated, twice over: 100.0 gets a field of eight
    characters, and in the template [opt00opt0000], which holds the one
    token [opt0000], the field of 12.5 completes the placeholder
    [opt0012]. *)
Lemma write_fit_file_wide_field :
  _write_fit_file [FFin false 100 1] (Sample.inside (lit "opt0000"))
  = (Sample.inside (lit "100.0000"), Ok tt)
  /\ length (format_7_4f (FFin false 100 1)) = 8%nat
  /\ _write_fit_file [FFin false 25 2] (Sample.inside (lit "opt00opt0000"))
     = (Sample.inside (lit "opt0012.5000"), Ok tt)
  /\ has_placeholder (lit "opt0012.5000") = true.
Proof. repeat split. Qed.

(** C8 (as amended).  On a template made of text without [opt] and of
    tokens of four digits, a second run of [_write_fit_file] with the
    same parameters writes what the first run wrote: the world does not
    change. *)
Theorem write_fit_file_idempotent (variables : list pyfloat) (head : str)
    (rest : list (nat * str)) (w : world) (files : gmap str str) (raw : str) :
  opt_free head = true ->
  forallb (fun p => (N.of_nat p.1 <? 10000) && opt_free p.2) rest = true ->
  dirs w !! cwd w = Some files ->
  files !! lit "tleed5.i" = Some raw ->
  translate_newlines raw = render head (fresh rest) ->
  _write_fit_file variables w
  = (with_template (filled variables head rest) files w, Ok tt)
  /\ _write_fit_file variables (with_template (filled variables head rest) files w)
     = (with_template (filled variables head rest) files w, Ok tt).
Proof.
  intros Hhead Hrest Hdir Hfile Hraw.
  assert (Hfirst : substitute 0 variables (translate_newlines raw)
                   = filled variables head rest)
    by (rewrite Hraw; apply substitute_fresh; assumption).
  split.
  - rewrite (write_fit_file_eq variables w files raw Hdir Hfile), Hfirst. reflexivity.
  - rewrite (write_fit_file_eq variables _
               (<[lit "tleed5.i" := filled variables head rest]> files)
               (filled variables head rest));
      [|apply lookup_insert_eq|apply lookup_insert_eq].
    rewrite translate_newlines_id.
    + rewrite substitute_filled by assumption.
      unfold with_template. cbn [dirs cwd set_dirs].
      rewrite !insert_insert_eq. reflexivity.
    + rewrite <- Hfirst. apply substitute_no_CR, translate_newlines_no_CR.
Qed.

Lemma write_fit_file_idempotent_witness :
  _write_fit_file (x Sample.msg) (Sample.inside Sample.template)
  = (Sample.inside (lit "   1.5000  -2.2500   DISPLACEMENTS" ++ [LF]), Ok tt)
  /\ _write_fit_file (x Sample.msg)
       (Sample.inside (lit "   1.5000  -2.2500   DISPLACEMENTS" ++ [LF]))
     = (Sample.inside (lit "   1.5000  -2.2500   DISPLACEMENTS" ++ [LF]), Ok tt).
Proof.
  destruct (write_fit_file_idempotent (x Sample.msg) Sample.head Sample.rest
              (Sample.inside Sample.template)
              {[ lit "tleed5.i" := Sample.template ]} Sample.template)
    as [Hfirst Hsecond]; [reflexivity..|].
  split; [exact Hfirst|exact Hsecond].
Defined.

(** C8 fails as stated: in the template [opt000opt0002] the field of
    10.0 completes the placeholder [opt0001], which the first run had
    already passed and the second run replaces. *)
Lemma write_fit_file_second_run_differs :
  _write_fit_file [FFin false 0 1; FFin false 0 1; FFin false 10 1]
    (Sample.inside (lit "opt000opt0002"))
  = (Sample.inside (lit "opt00010.0000"), Ok tt)
  /\ _write_fit_file [FFin false 0 1; FFin false 0 1; FFin false 10 1]
       (Sample.inside (lit "opt00010.0000"))
     = (Sample.inside (lit " 0.00000.0000"), Ok tt)
  /\ lit "opt00010.0000" <> lit " 0.00000.0000".
Proof. repeat split. discriminate. Qed.

End InjectionTheorems.

(** * Further properties *)

Section GetResultsMore.

Import PyStr.

Lemma eqb_eq (a : str) : forall b : str, eqb a b = true <-> a = b.
Proof.
  induction a as [|x a IH]; intros [|y b]; cbn [eqb]; split; try discriminate; try reflexivity.
  - intros H. apply andb_prop in H as [Hxy H]. apply Ascii.eqb_eq in Hxy.
    apply IH in H. congruence.
  - intros [= -> ->]. rewrite Ascii.eqb_refl. apply IH. reflexivity.
Qed.

Lemma value_eq_true (v : value) :
  value_eq v (VStr (lit "true")) = true <-> v = VStr (lit "true").
Proof.
  destruct v as [b|z|s]; cbn [value_eq]; split; try discriminate.
  - intros H. apply eqb_eq in H. congruence.
  - intros [= ->]. apply eqb_eq. reflexivity.
Qed.

(** Text without the separator is one field. *)
Lemma split_from_no_sep (sep : str) (s : str) : forall cur : str,
  contains sep s = false -> split_from sep 0 cur s = [rev cur ++ s].
Proof.
  induction s as [|c s IH]; intros cur H.
  - cbn. rewrite app_nil_r. reflexivity.
  - cbn [contains] in H. apply orb_false_elim in H as [Hhere H].
    cbn [split_from]. rewrite Hhere, (IH _ H). cbn [rev].
    rewrite <- app_assoc. reflexivity.
Qed.

Lemma split_no_sep (sep s : str) : contains sep s = false -> split sep s = [s].
Proof. intros H. unfold split. rewrite split_from_no_sep by exact H. reflexivity. Qed.

Abbreviation no_label :=
  (fun line : str => PyStr.contains (lit "R-FACTOR") line = false).

Lemma scan_lines_skip (pre rest : list str) (rfactor : option pyfloat) :
  Forall no_label pre -> scan_lines (pre ++ rest) rfactor = scan_lines rest rfactor.
Proof.
  induction 1 as [|l pre Hl _ IH]; [reflexivity|].
  cbn [app scan_lines]. rewrite Hl. exact IH.
Qed.

(** X1.  Whether or not the marker [iv 1] exists, [get_results] returns
    the number behind the first [=] of the first line of [search.s] that
    contains [R-FACTOR]; the lines after it are not looked at. *)
Theorem get_results_first_label (self : solver) (w : world) (wd contents : str)
    (pre post : list str) (line field : str) (v : pyfloat) :
  work_dir w = Some wd ->
  lookup_file w wd (lit "search.s") = Some contents ->
  readlines (translate_newlines contents) = pre ++ line :: post ->
  Forall no_label pre ->
  contains (lit "R-FACTOR") line = true ->
  split (lit "=") line !! 1%nat = Some field ->
  PyFloat.of_str field = Some v ->
  get_results self w = (after_cleanup self wd w, Ok v).
Proof.
  intros Hwd Hsummary Hlines Hpre Hline Hfield Hv.
  rewrite (get_results_eq self w wd Hwd), Hsummary, Hlines.
  rewrite (scan_lines_first_label pre post line field v) by assumption.
  reflexivity.
Qed.

(** X2.  When the first line of [search.s] with [R-FACTOR] holds no
    [=], [get_results] raises [IndexError]; when the text behind its
    first [=] is not a number, it raises [ValueError].  Either way the
    world is as before: the clean-up is not reached, whatever the
    flag. *)
Theorem get_results_scan_error (self : solver) (w : world) (wd contents : str)
    (pre post : list str) (line : str) :
  work_dir w = Some wd ->
  lookup_file w wd (lit "search.s") = Some contents ->
  readlines (translate_newlines contents) = pre ++ line :: post ->
  Forall no_label pre ->
  contains (lit "R-FACTOR") line = true ->
  (contains (lit "=") line = false -> get_results self w = (w, Raise IndexError))
  /\ (forall field : str,
        split (lit "=") line !! 1%nat = Some field ->
        PyFloat.of_str field = None ->
        get_results self w = (w, Raise ValueError)).
Proof.
  intros Hwd Hsummary Hlines Hpre Hline.
  rewrite (get_results_eq self w wd Hwd), Hsummary, Hlines.
  rewrite scan_lines_skip by exact Hpre. cbn [scan_lines]. rewrite Hline.
  split.
  - intros Hsep. rewrite (split_no_sep _ _ Hsep). reflexivity.
  - intros field Hfield Hbad. rewrite Hfield, Hbad. reflexivity.
Qed.

(** X3.  [get_results] changes nothing but the workspace and what lies
    beneath it: it leaves the world alone unless the flag is the string
    ["true"]; with that flag a returned value means the workspace is
    gone, with every directory beneath it; and every directory outside
    the workspace, the working directory, [self.work_dir] and the output
    are untouched in all cases. *)
Theorem get_results_frame (self : solver) (w : world) (wd : str) :
  work_dir w = Some wd ->
  (remove_work_dir self <> VStr (lit "true") -> fst (get_results self w) = w)
  /\ (forall r d, remove_work_dir self = VStr (lit "true") ->
                  snd (get_results self w) = Ok r ->
                  beneath (resolve w wd) d = true ->
                  dirs (fst (get_results self w)) !! d = None)
  /\ (forall d, beneath (resolve w wd) d = false ->
                dirs (fst (get_results self w)) !! d = dirs w !! d)
  /\ cwd (fst (get_results self w)) = cwd w
  /\ work_dir (fst (get_results self w)) = work_dir w
  /\ stdout (fst (get_results self w)) = stdout w
  /\ calls (fst (get_results self w)) = calls w.
Proof.
  intros Hwd. rewrite (get_results_eq self w wd Hwd). unfold after_cleanup.
  destruct (value_eq (remove_work_dir self) (VStr (lit "true"))) eqn:Hflag.
  - apply value_eq_true in Hflag.
    destruct (lookup_file w wd (lit "search.s")); [|repeat split; try congruence; discriminate].
    destruct (scan_lines _ _) as [[v|]|e]; cbn [fst snd];
      repeat split; try congruence; try discriminate;
      try (intros r d _ _ Hd; cbn; apply without_tree_inside; exact Hd);
      try (intros d Hd; cbn; apply without_tree_outside; exact Hd).
  - assert (Hne : remove_work_dir self <> VStr (lit "true")).
    { intros E. apply value_eq_true in E. congruence. }
    destruct (lookup_file w wd (lit "search.s")); [|repeat split; try congruence; discriminate].
    destruct (scan_lines _ _) as [[v|]|e]; cbn [fst snd];
      repeat split; try congruence; try discriminate.
Qed.

End GetResultsMore.

Section PrepareMore.

Import PyStr.



Lemma named_lookup_ne (self : solver) (msg : message) (w : world) (d : str) :
  d <> resolve w (folder_name (step msg) (set msg)) ->
  dirs (named self msg w) !! d = dirs w !! d.
Proof.
  intros Hne. unfold named. cbn [dirs set_dirs set_work_dir].
  destruct (dirs w !! resolve w (folder_name (step msg) (set msg))); [reflexivity|].
  apply lookup_insert_ne. congruence.
Qed.

Lemma named_made (self : solver) (msg : message) (w : world) :
  is_Some (dirs (named self msg w) !! resolve w (folder_name (step msg) (set msg))).
Proof.
  unfold named. cbn [dirs set_dirs set_work_dir].
  destruct (dirs w !! resolve w (folder_name (step msg) (set msg))) eqn:E.
  - rewrite E. eexists; reflexivity.
  - rewrite lookup_insert_eq. eexists; reflexivity.
Qed.


(** X5.  Whatever [prepare] ends in, it leaves alone every directory
    that is neither the workspace, nor beneath the workspace, nor above
    it, nor the directory [_pre_dir] makes under the working directory. *)
Theorem prepare_frame (self : solver) (msg : message) (w : world) (d : str) :
  startswith (lit "/") (cwd w) = true ->
  is_Some (dirs w !! cwd w) ->
  beneath (workspace_of self msg w) d = false ->
  beneath d (workspace_of self msg w) = false ->
  d <> resolve w (folder_name (step msg) (set msg)) ->
  dirs (fst (prepare self msg w)) !! d = dirs w !! d.
Proof.
  intros Habs Hcwd Hin _ Hpre.
  assert (Hws : workspace_of self msg w <> d).
  { intros <-. rewrite beneath_refl in Hin. discriminate Hin. }
  rewrite (prepare_eq self msg w Habs Hcwd).
  destruct (dirs (named self msg w) !! _) as [files|]; cbv zeta.
  - destruct (_ !! lit "tleed5.i"); cbn [fst dirs entered set_cwd set_dirs];
      (rewrite lookup_insert_ne by exact Hws); apply named_lookup_ne, Hpre.
  - cbn [fst]. apply named_lookup_ne, Hpre.
Qed.

(** X6.  Without the reference directory [prepare] raises
    [DistutilsFileError] from [copy_tree]: the process has not moved, but
    [_pre_dir] has made its directory and [self.work_dir] is set. *)
Theorem prepare_without_reference (self : solver) (msg : message) (w : world) :
  startswith (lit "/") (cwd w) = true ->
  is_Some (dirs w !! cwd w) ->
  dirs w !! resolve w (os_path_join (root_dir self) (path_to_base_dir self)) = None ->
  resolve w (os_path_join (root_dir self) (path_to_base_dir self))
    <> resolve w (folder_name (step msg) (set msg)) ->
  snd (prepare self msg w) = Raise DistutilsFileError
  /\ cwd (fst (prepare self msg w)) = cwd w
  /\ work_dir (fst (prepare self msg w))
     = Some (os_path_join (proc_dir self) (folder_name (step msg) (set msg)))
  /\ is_Some (dirs (fst (prepare self msg w))
                !! resolve w (folder_name (step msg) (set msg))).
Proof.
  intros Habs Hcwd Hsrc Hne.
  rewrite (prepare_eq self msg w Habs Hcwd).
  rewrite named_lookup_ne by exact Hne. rewrite Hsrc. cbn [fst snd].
  repeat split. apply named_made.
Qed.

End PrepareMore.

Section DigitCount.

Import PyStr PyInt.

Lemma digit_value_le (c : ascii) : is_digit c = true -> digit_value c <= 9.
Proof.
  unfold is_digit, digit_value. intros H. apply andb_prop in H as [H1 H2].
  apply N.leb_le in H1, H2. lia.
Qed.

Lemma fold_digits_bound (s : str) : forall a : N,
  forallb is_digit s = true ->
  fold_left (fun a c => 10 * a + digit_value c) s a + 1
  <= (a + 1) * 10 ^ N.of_nat (length s).
Proof.
  induction s as [|c s IH]; intros a Hs.
  - cbn. lia.
  - cbn [forallb] in Hs. apply andb_prop in Hs as [Hc Hs].
    cbn [fold_left length]. rewrite Nat2N.inj_succ, N.pow_succ_r'.
    pose proof (digit_value_le c Hc) as Hd.
    etransitivity; [apply IH, Hs|]. nia.
Qed.

Lemma value_of_bound (s : str) :
  forallb is_digit s = true -> value_of s < 10 ^ N.of_nat (length s).
Proof.
  intros Hs. pose proof (fold_digits_bound s 0 Hs) as H. unfold value_of. lia.
Qed.

(** A number has at most [k] digits exactly when it is below [10^k]. *)
Lemma str_of_N_length (n : N) (k : nat) :
  (1 <= k)%nat -> ((length (str_of_N n) <= k)%nat <-> n < 10 ^ N.of_nat k).
Proof.
  intros Hk. split.
  - intros Hlen. pose proof (value_of_bound _ (str_of_N_all_digits n)) as H.
    rewrite value_of_str_of_N in H.
    eapply N.lt_le_trans; [exact H|]. apply N.pow_le_mono_r; lia.
  - intros Hn. pose proof (digits_fuel_short (S (N.to_nat (N.size n))) k n [] Hk Hn) as H.
    cbn [length] in H. unfold str_of_N. lia.
Qed.

End DigitCount.

Section Widths.

Import PyStr PyInt.

(** X10.  The field of a finite value is never shorter than seven
    characters, and it is exactly seven when the value, rounded to four
    decimals, is below 100, or below 10 in magnitude when it carries a
    minus sign. *)
Theorem format_7_4f_width (neg : bool) (num : N) (den : positive) :
  (7 <= length (format_7_4f (FFin neg num den)))%nat
  /\ (length (format_7_4f (FFin neg num den)) = 7%nat
      <-> round_half_even (num * 10000) den < (if neg then 100000 else 1000000)).
Proof.
  split; [apply format_7_4f_length|].
  set (d := round_half_even (num * 10000) den).
  unfold format_7_4f. rewrite rjust_length. unfold fixed4. fold d.
  rewrite !length_app. cbn [length].
  rewrite zfill4_length by (apply N.mod_lt; discriminate).
  pose proof (str_of_N_nonempty (d / 10000)) as Hne.
  destruct neg; cbn [sign_chars length].
  - pose proof (str_of_N_length (d / 10000) 1 ltac:(lia)) as H.
    assert (E : d / 10000 < 10 ^ N.of_nat 1 <-> d < 100000).
    { change (10 ^ N.of_nat 1) with 10. split; intros Hd.
      - pose proof (N.mod_lt d 10000 ltac:(discriminate)).
        pose proof (N.div_mod d 10000 ltac:(discriminate)). lia.
      - apply N.Div0.div_lt_upper_bound. lia. }
    rewrite <- E, <- H. lia.
  - pose proof (str_of_N_length (d / 10000) 2 ltac:(lia)) as H.
    assert (E : d / 10000 < 10 ^ N.of_nat 2 <-> d < 1000000).
    { change (10 ^ N.of_nat 2) with 100. split; intros Hd.
      - pose proof (N.mod_lt d 10000 ltac:(discriminate)).
        pose proof (N.div_mod d 10000 ltac:(discriminate)). lia.
      - apply N.Div0.div_lt_upper_bound. lia. }
    rewrite <- E, <- H. lia.
Qed.

Lemma format_08d_length (z : Z) :
  (0 <= z)%Z ->
  (8 <= length (format_08d z))%nat
  /\ (length (format_08d z) = 8%nat <-> (z < 10 ^ 8)%Z).
Proof.
  intros Hz. rewrite format_08d_nonneg by exact Hz. unfold zfill.
  rewrite rjust_length. split; [lia|].
  pose proof (str_of_N_length (Z.to_N z) 8 ltac:(lia)) as H.
  change (10 ^ N.of_nat 8) with 100000000 in H.
  change (10 ^ 8)%Z with 100000000%Z. split; intros E.
  - assert (Hlen : (length (str_of_N (Z.to_N z)) <= 8)%nat) by lia.
    apply H in Hlen. lia.
  - assert (Hn : Z.to_N z < 100000000) by lia.
    apply H in Hn. lia.
Qed.

(** X11.  For a step and a set that are not negative the workspace name
    has at least twenty characters, and exactly twenty when both are
    below [10^8]. *)
Theorem folder_name_length (Log_number iset : Z) :
  (0 <= Log_number)%Z -> (0 <= iset)%Z ->
  (20 <= length (folder_name Log_number iset))%nat
  /\ (length (folder_name Log_number iset) = 20%nat
      <-> (Log_number < 10 ^ 8)%Z /\ (iset < 10 ^ 8)%Z).
Proof.
  intros Hs Ht. unfold folder_name. rewrite !length_app.
  change (length (lit "Log")) with 3%nat. change (length (lit "_")) with 1%nat.
  destruct (format_08d_length Log_number Hs) as [Hs1 Hs2].
  destruct (format_08d_length iset Ht) as [Ht1 Ht2].
  split; [lia|]. rewrite <- Hs2, <- Ht2. lia.
Qed.

End Widths.

Section WriteFitFileMore.

Import PyStr PyInt.

Lemma lookup_file_here (w : world) (name : str) :
  lookup_file w [] name = dirs w !! cwd w ≫= fun files => files !! name.
Proof. reflexivity. Qed.

Lemma write_fit_file_missing (variables : list pyfloat) (w : world) :
  lookup_file w [] (lit "tleed5.i") = None ->
  _write_fit_file variables w = (w, Raise FileNotFoundError).
Proof.
  intros Hnone. unfold _write_fit_file. erewrite bind_raise; [reflexivity|].
  unfold open_read. rewrite Hnone. reflexivity.
Qed.

(** X7.  [_write_fit_file] raises [FileNotFoundError] and changes
    nothing when the working directory has no [tleed5.i]; in every case
    it leaves the working directory, [self.work_dir], the output, all
    other directories and all other files as they were. *)
Theorem write_fit_file_frame (variables : list pyfloat) (w : world) :
  (lookup_file w [] (lit "tleed5.i") = None ->
   _write_fit_file variables w = (w, Raise FileNotFoundError))
  /\ cwd (fst (_write_fit_file variables w)) = cwd w
  /\ work_dir (fst (_write_fit_file variables w)) = work_dir w
  /\ stdout (fst (_write_fit_file variables w)) = stdout w
  /\ calls (fst (_write_fit_file variables w)) = calls w
  /\ (forall d, d <> cwd w ->
        dirs (fst (_write_fit_file variables w)) !! d = dirs w !! d)
  /\ (forall name, name <> lit "tleed5.i" ->
        lookup_file (fst (_write_fit_file variables w)) [] name = lookup_file w [] name).
Proof.
  split; [apply write_fit_file_missing|].
  destruct (lookup_file w [] (lit "tleed5.i")) as [raw|] eqn:Hfound.
  - rewrite lookup_file_here in Hfound.
    destruct (dirs w !! cwd w) as [files|] eqn:Hdir; [|discriminate Hfound].
    unfold mbind, option_bind in Hfound.
    rewrite (write_fit_file_eq variables w files raw Hdir Hfound).
    unfold with_template. cbn [fst]. repeat split.
    + intros d Hd. cbn [dirs set_dirs]. apply lookup_insert_ne.
      intros E. apply Hd. symmetry. exact E.
    + intros name Hname. rewrite !lookup_file_here.
      cbn [dirs cwd set_dirs]. rewrite lookup_insert_eq, Hdir.
      unfold mbind, option_bind. apply lookup_insert_ne.
      intros E. apply Hname. symmetry. exact E.
  - rewrite (write_fit_file_missing variables w Hfound). repeat split.
Qed.

(** X9.  A template in which [opt] does not occur is written back as it
    was read, whatever the parameters. *)
Theorem write_fit_file_no_tokens (variables : list pyfloat) (w : world)
    (files : gmap str str) (raw : str) :
  dirs w !! cwd w = Some files ->
  files !! lit "tleed5.i" = Some raw ->
  opt_free (translate_newlines raw) = true ->
  _write_fit_file variables w
  = (with_template (translate_newlines raw) files w, Ok tt).
Proof.
  intros Hdir Hfile Hfree.
  rewrite (write_fit_file_eq variables w files raw Hdir Hfile).
  change (translate_newlines raw) with (render (translate_newlines raw) (fresh [])) at 1.
  rewrite substitute_fresh by (try reflexivity; exact Hfree). reflexivity.
Qed.

Lemma startswith_split (p : str) : forall s : str,
  startswith p s = true -> s = p ++ skipn (length p) s.
Proof.
  induction p as [|c p IH]; intros [|d s] H; try discriminate H; try reflexivity.
  cbn [startswith] in H. destruct (Ascii.eqb c d) eqn:E; [|discriminate H].
  apply Ascii.eqb_eq in E. subst d. cbn [length skipn app]. f_equal. apply IH, H.
Qed.

Lemma has_placeholder_app_r (a s : str) :
  has_placeholder s = true -> has_placeholder (a ++ s) = true.
Proof.
  intros H. induction a as [|c a IH]; [exact H|].
  cbn [app has_placeholder]. rewrite IH. apply orb_true_r.
Qed.

Lemma has_placeholder_token_app (j : nat) (rest : str) :
  N.of_nat j < 10000 -> has_placeholder (token j ++ rest) = true.
Proof.
  intros Hj. rewrite token_eq. cbn [app].
  set (digits := zfill 4 (str_of_N (N.of_nat j))).
  assert (Hlen : length digits = 4%nat) by (apply zfill4_length, Hj).
  assert (Hdig : forallb is_digit digits = true) by apply token_all_digits.
  unfold has_placeholder. fold has_placeholder.
  apply orb_true_intro. left.
  change (skipn 3 ("o"%char :: "p"%char :: "t"%char :: digits ++ rest)) with (digits ++ rest).
  rewrite firstn_app, Hlen, Nat.sub_diag, firstn_O, app_nil_r.
  rewrite <- Hlen at 1. rewrite firstn_all, Hdig.
  rewrite length_app, Hlen. reflexivity.
Qed.

Lemma has_placeholder_token (j : nat) (s : str) :
  N.of_nat j < 10000 -> contains (token j) s = true -> has_placeholder s = true.
Proof.
  intros Hj. induction s as [|c s IH]; intros H.
  - rewrite token_eq in H. discriminate H.
  - cbn [contains] in H. apply orb_prop in H as [H|H].
    + apply startswith_split in H. rewrite H. apply has_placeholder_token_app, Hj.
    + change (c :: s) with ([c] ++ s). apply has_placeholder_app_r, IH, H.
Qed.

Lemma render_contains_slot (s : slot) (chunk : str) (rest : list (slot * str)) :
  forall head : str,
  In (s, chunk) rest -> contains (slot_text s) (render head rest) = true.
Proof.
  induction rest as [|[s' chunk'] rest IH]; intros head Hin; [destruct Hin|].
  cbn [render]. destruct Hin as [[= -> ->]|Hin].
  - apply contains_middle.
  - apply contains_app_r, contains_app_r, IH, Hin.
Qed.

(** X8.  A parameter vector shorter than the template is accepted: the
    tokens it covers are replaced, and a token whose index is beyond the
    vector stays in the file, which still holds a placeholder. *)
Theorem write_fit_file_short_vector (variables : list pyfloat) (head : str)
    (rest : list (nat * str)) (w : world) (files : gmap str str) (raw : str) (j : nat) :
  opt_free head = true ->
  forallb (fun p => (N.of_nat p.1 <? 10000) && opt_free p.2) rest = true ->
  dirs w !! cwd w = Some files ->
  files !! lit "tleed5.i" = Some raw ->
  translate_newlines raw = render head (fresh rest) ->
  In j (map fst rest) ->
  (length variables <= j)%nat ->
  _write_fit_file variables w
  = (with_template (filled variables head rest) files w, Ok tt)
  /\ contains (token j) (filled variables head rest) = true
  /\ has_placeholder (filled variables head rest) = true.
Proof.
  intros Hhead Hrest Hdir Hfile Hraw Hin Hshort.
  assert (Hj : N.of_nat j < 10000).
  { apply in_map_iff in Hin as [[j' chunk] [<- Hin]].
    rewrite forallb_forall in Hrest. specialize (Hrest _ Hin).
    apply andb_prop in Hrest as [Hlt _]. apply N.ltb_lt in Hlt. exact Hlt. }
  assert (Hkeep : contains (token j) (filled variables head rest) = true).
  { apply in_map_iff in Hin as [[j' chunk] [<- Hin]]. cbn [fst].
    unfold filled. apply (render_contains_slot (Tok j') chunk).
    unfold on_slots, fresh. rewrite map_map. apply in_map_iff.
    exists (j', chunk). split; [|exact Hin]. cbn [fst snd fill_from].
    rewrite Nat.sub_0_r. cbn [fst] in Hshort.
    rewrite (lookup_ge_None_2 variables j') by lia. reflexivity. }
  split; [|split; [exact Hkeep|exact (has_placeholder_token j _ Hj Hkeep)]].
  rewrite (write_fit_file_eq variables w files raw Hdir Hfile), Hraw.
  rewrite substitute_fresh by assumption. reflexivity.
Qed.

End WriteFitFileMore.

Section RunMore.

Variable host : str -> option program.

(** X12.  When both executables exit with zero, [run] returns normally
    and prints nothing; the two commands were started in this order in
    the workspace, which holds what the second made of the files the
    first left; no other directory changed. *)
Theorem run_both_succeed (self : solver) (w : world) (wd : str)
    (files files1 files2 : gmap str str) (p1 p2 : program) :
  work_dir w = Some wd ->
  dirs w !! resolve w wd = Some files ->
  host (path_to_first_solver self) = Some p1 ->
  p1 files = (files1, 0%Z) ->
  host (path_to_second_solver self) = Some p2 ->
  p2 files1 = (files2, 0%Z) ->
  snd (run host self w) = Ok tt
  /\ calls (fst (run host self w))
     = calls w ++ [(path_to_first_solver self, resolve w wd);
                   (path_to_second_solver self, resolve w wd)]
  /\ stdout (fst (run host self w)) = stdout w
  /\ dirs (fst (run host self w)) !! resolve w wd = Some files2
  /\ (forall d, d <> resolve w wd -> dirs (fst (run host self w)) !! d = dirs w !! d).
Proof.
  intros Hwd Hdir Hhost1 Hp1 Hhost2 Hp2.
  unfold run, try_except, mbind, M_bind.
  rewrite (run_by_subprocess_eq host _ wd w files files1 p1 0 Hwd Hdir Hhost1 Hp1).
  cbn [Z.eqb].
  rewrite (run_by_subprocess_eq host _ wd _ files1 files2 p2 0);
    [|exact Hwd|cbn; apply lookup_insert_eq|exact Hhost2|exact Hp2].
  cbn [Z.eqb fst snd calls stdout dirs add_call set_dirs cwd resolve].
  rewrite <- app_assoc. repeat split.
  - apply lookup_insert_eq.
  - intros d Hd. rewrite !lookup_insert_ne; [reflexivity| |];
      intros E; apply Hd; symmetry; exact E.
Qed.

End RunMore.

Section TokenPrefix.

Import PyStr PyInt.

(** X17.  Below 10000 the tokens have seven characters and none begins
    another one: a token is found at the head of a text that starts with
    a token only when the two indices are the same. *)
Theorem token_prefix_free (i j : nat) (rest : str) :
  N.of_nat i < 10000 -> N.of_nat j < 10000 ->
  length (token i) = 7%nat
  /\ (startswith (token i) (token j ++ rest) = true <-> i = j).
Proof.
  intros Hi Hj. split.
  - rewrite token_eq. cbn [length]. rewrite zfill4_length by exact Hi. reflexivity.
  - split; [apply token_startswith_inj; assumption|].
    intros ->. apply startswith_app.
Qed.

End TokenPrefix.

Section PrepareTwice.

Import PyStr.





End PrepareTwice.

(** ** The constructor ([Solver.__init__]) *)

Example dirname_samples :
  map os_path_dirname
    [lit ""; lit "a"; lit "a/b"; lit "/a"; lit "/"; lit "//"; lit "a/";
     lit "a//b"; lit "//a"; lit "./a"; lit "~/x"; lit "a/b/"]
  = [lit ""; lit ""; lit "a"; lit "/"; lit "/"; lit "//"; lit "a";
     lit "a"; lit "//"; lit "."; lit "~"; lit "a/b"].
Proof. reflexivity. Qed.

Section Dirname.

Lemma upto_last_sep_nil (p : str) :
  upto_last_sep p = [] <-> existsb is_sep p = false.
Proof.
  induction p as [|c p IH]; [split; reflexivity|].
  cbn [upto_last_sep existsb]. destruct (upto_last_sep p) as [|h t] eqn:E.
  - destruct (is_sep c); cbn [orb]; [split; discriminate|]. exact IH.
  - split; [discriminate|]. intros H. apply orb_false_elim in H as [_ H].
    apply IH in H. discriminate H.
Qed.

Lemma lstrip_sep_nil (s : str) : lstrip_sep s = [] -> forallb is_sep s = true.
Proof.
  induction s as [|c s IH]; [reflexivity|]. cbn [lstrip_sep forallb].
  destruct (is_sep c); [exact IH|discriminate].
Qed.

Lemma forallb_rev (P : ascii -> bool) (s : str) : forallb P (rev s) = forallb P s.
Proof.
  induction s as [|c s IH]; [reflexivity|].
  cbn [rev forallb]. rewrite forallb_app, IH. cbn [forallb].
  rewrite andb_true_r. apply andb_comm.
Qed.

(** A path has a directory part exactly when it holds a separator. *)
Lemma os_path_dirname_nil (p : str) :
  os_path_dirname p = [] <-> existsb is_sep p = false.
Proof.
  rewrite <- upto_last_sep_nil. unfold os_path_dirname.
  destruct (upto_last_sep p) as [|h t] eqn:E; [split; reflexivity|].
  split; [|discriminate].
  destruct (forallb is_sep (h :: t)) eqn:Hall; [discriminate|].
  intros H. apply (f_equal (@rev ascii)) in H. rewrite rev_involutive in H.
  change (rev []) with (@nil ascii) in H.
  apply lstrip_sep_nil in H. rewrite forallb_rev in H. congruence.
Qed.

End Dirname.

Section LocateProperties.

Variable X_OK : str -> bool.
Variable expanduser : str -> str.

Lemma eqb_nil (s : str) : PyStr.eqb s [] = true <-> s = [].
Proof. apply eqb_eq. Qed.

(** The loop ends on the first directory that holds an executable. *)
Lemma search_some (psolver : str) (rest : list str) : forall P Q : str,
  find (fun Q => X_OK (os_path_join Q psolver)) (P :: rest) = Some Q ->
  search X_OK psolver P rest = os_path_join Q psolver.
Proof.
  induction rest as [|P' rest IH]; intros P Q; cbn [search];
    change (find (fun Q => X_OK (os_path_join Q psolver)) (P :: ?l))
      with (if X_OK (os_path_join P psolver) then Some P
            else find (fun Q => X_OK (os_path_join Q psolver)) l);
    cbn [find]; destruct (X_OK (os_path_join P psolver)) eqn:E.
  - intros [= <-]. reflexivity.
  - discriminate.
  - intros [= <-]. reflexivity.
  - intros H. apply IH. exact H.
Qed.

(** When no directory holds one, what the loop leaves cannot be
    executed. *)
Lemma search_none (psolver : str) (rest : list str) : forall P : str,
  find (fun Q => X_OK (os_path_join Q psolver)) (P :: rest) = None ->
  X_OK (search X_OK psolver P rest) = false.
Proof.
  induction rest as [|P' rest IH]; intros P; cbn [search];
    change (find (fun Q => X_OK (os_path_join Q psolver)) (P :: ?l))
      with (if X_OK (os_path_join P psolver) then Some P
            else find (fun Q => X_OK (os_path_join Q psolver)) l);
    cbn [find]; destruct (X_OK (os_path_join P psolver)) eqn:E.
  - discriminate.
  - intros _. exact E.
  - discriminate.
  - intros H. apply IH. exact H.
Qed.

(** X13.  A configured name with a directory part is taken from the
    root directory, after expanding the user's home, and [PATH] is not
    read: the result is that path when it can be executed and
    [InputError] naming the configured text otherwise. *)
Theorem locate_with_directory (PATH : option str) (root psolver : str) :
  existsb is_sep psolver = true ->
  locate X_OK expanduser PATH root psolver
  = if X_OK (os_path_join root (expanduser psolver))
    then Done (os_path_join root (expanduser psolver))
    else Fail (Raised (InputError (solver_not_found_msg psolver))).
Proof.
  intros Hsep. unfold locate.
  destruct (PyStr.eqb (os_path_dirname psolver) []) eqn:E.
  - apply eqb_nil, os_path_dirname_nil in E. congruence.
  - cbn. destruct (X_OK _); reflexivity.
Qed.

(** X14.  A bare configured name is looked for in the root directory
    first and then in the directories of [PATH], in order: the first one
    that holds an executable of that name wins, and [InputError] naming
    the solver is raised when none does.  Without [PATH] in the
    environment the search is a [KeyError]. *)
Theorem locate_bare_name (PATH : option str) (root psolver : str) :
  existsb is_sep psolver = false ->
  locate X_OK expanduser PATH root psolver
  = match PATH with
    | None => Fail (KeyError (lit "PATH"))
    | Some dirs =>
        match find (fun P => X_OK (os_path_join P psolver))
                (root :: PyStr.split (lit ":") dirs) with
        | Some P => Done (os_path_join P psolver)
        | None => Fail (Raised (InputError (solver_not_found_msg psolver)))
        end
    end.
Proof.
  intros Hsep. unfold locate.
  apply os_path_dirname_nil, eqb_nil in Hsep. rewrite Hsep. cbn [negb].
  destruct PATH as [dirs|]; [|reflexivity].
  unfold mbind, outcome_bind.
  destruct (find _ _) as [P|] eqn:E.
  - rewrite (search_some _ _ _ _ E).
    apply find_some in E as [_ E]. rewrite E. reflexivity.
  - rewrite (search_none _ _ _ E). reflexivity.
Qed.

(** Whatever [locate] returns can be executed. *)
Lemma locate_executable (PATH : option str) (root psolver path : str) :
  locate X_OK expanduser PATH root psolver = Done path -> X_OK path = true.
Proof.
  unfold locate, mbind, outcome_bind.
  destruct (if negb _ then _ else _) as [p|e]; [|discriminate].
  destruct (X_OK p) eqn:E; cbn [negb]; [|discriminate].
  intros [= <-]. exact E.
Qed.

End LocateProperties.

Section Keywords.

Lemma keywords_known (key : str) :
  existsb (PyStr.eqb key) keywords_solver = true ->
  PyStr.eqb key (lit "name") = false ->
  exists l, dict_get key keywords = Some l.
Proof.
  intros Hin Hname. cbn [existsb keywords_solver] in Hin.
  rewrite Hname in Hin. cbn [orb] in Hin.
  repeat (apply orb_prop in Hin as [Hin|Hin];
          [apply eqb_eq in Hin; subst key; eexists; reflexivity|]).
  discriminate Hin.
Qed.

Lemma check_children_spec (key : str) (l : list str) (children : list str) :
  dict_get key keywords = Some l ->
  match check_children key children with
  | Done _ => forallb (fun child => existsb (PyStr.eqb child) l) children = true
  | Fail e =>
      forallb (fun child => existsb (PyStr.eqb child) l) children = false
      /\ exists child, In child children
                       /\ existsb (PyStr.eqb child) l = false
                       /\ e = RuntimeError (keyword_msg child key)
  end.
Proof.
  intros Hkey. induction children as [|child rest IH]; [reflexivity|].
  cbn [check_children forallb]. rewrite Hkey.
  unfold mbind, outcome_bind, check_keywords.
  destruct (existsb (PyStr.eqb child) l) eqn:E.
  - cbn [andb]. destruct (check_children key rest) as [[]|e]; [exact IH|].
    destruct IH as [Hall [c [Hin [Hc He]]]]. split; [exact Hall|].
    exists c. repeat split; try assumption. right. exact Hin.
  - split; [reflexivity|]. exists child. repeat split; [left; reflexivity|exact E].
Qed.

Lemma check_sections_cases (info_s : list (str * entry)) :
  match check_sections info_s with
  | Done _ => forallb section_ok info_s = true
  | Fail e =>
      forallb section_ok info_s = false
      /\ (e = Raised AttributeError
          \/ exists key segment, e = RuntimeError (keyword_msg key segment))
  end.
Proof.
  induction info_s as [|[key e] rest IH]; [reflexivity|].
  cbn [check_sections forallb].
  change (section_ok (key, e))
    with (existsb (PyStr.eqb key) keywords_solver
          && (PyStr.eqb key (lit "name")
              || match e with
                 | Table items =>
                     forallb (fun child => existsb (PyStr.eqb child) (registered key))
                       (map fst items)
                 | Leaf _ => false
                 end)).
  unfold mbind, outcome_bind, check_keywords.
  destruct (existsb (PyStr.eqb key) keywords_solver) eqn:Hkey; cbn [andb].
  2:{ split; [reflexivity|]. right. eexists _, _. reflexivity. }
  destruct (PyStr.eqb key (lit "name")) eqn:Hname; cbn [orb].
  - destruct (check_sections rest) as [[]|e']; exact IH.
  - destruct e as [items|v].
    + destruct (keywords_known key Hkey Hname) as [l Hl].
      pose proof (check_children_spec key l (map fst items) Hl) as Hc.
      assert (Hreg : registered key = l) by (unfold registered; rewrite Hl; reflexivity).
      rewrite Hreg.
      destruct (check_children key (map fst items)) as [[]|e'].
      * rewrite Hc. cbn [andb]. destruct (check_sections rest) as [[]|e'']; exact IH.
      * destruct Hc as [Hall [child [_ [_ ->]]]]. rewrite Hall.
        split; [reflexivity|]. right. eexists _, _. reflexivity.
    + split; [reflexivity|]. left. reflexivity.
Qed.

(** X16.  The keyword check passes exactly when every key of
    [info.solver] is one of [name], [config], [reference], [post] and
    every section other than [name] is a table of keys registered for
    it; when it fails, the error is a [RuntimeError] naming a key and its
    segment, or the [AttributeError] of a section that is no table, and
    never a [KeyError]. *)
Theorem check_sections_spec (info_s : list (str * entry)) :
  (check_sections info_s = Done tt <-> forallb section_ok info_s = true)
  /\ (forall e, check_sections info_s = Fail e ->
                e = Raised AttributeError
                \/ exists key segment, e = RuntimeError (keyword_msg key segment)).
Proof.
  pose proof (check_sections_cases info_s) as H.
  destruct (check_sections info_s) as [[]|e0].
  - split; [split; [intros _; exact H|reflexivity]|discriminate].
  - destruct H as [Hbad He]. split.
    + split; [discriminate|]. intros Hok. congruence.
    + intros e [= <-]. exact He.
Qed.

End Keywords.

Section InitProperties.

Variable X_OK : str -> bool.
Variable expanduser : str -> str.
Variable PATH : option str.

Lemma section_get_Done (info_s : list (str * entry)) (section key : str)
    (fallback v : value) :
  section_get info_s section key fallback = Done v ->
  exists items, dict_get section info_s = Some (Table items)
                /\ v = default fallback (dict_get key items).
Proof.
  unfold section_get. destruct (dict_get section info_s) as [[items|leaf]|]; try discriminate.
  intros [= <-]. exists items. split; reflexivity.
Qed.

Lemma section_item_Done (info_s : list (str * entry)) (section key : str) (v : value) :
  section_item info_s section key = Done v ->
  exists items, dict_get section info_s = Some (Table items)
                /\ dict_get key items = Some v.
Proof.
  unfold section_item. destruct (dict_get section info_s) as [[items|leaf]|]; try discriminate.
  destruct (dict_get key items) as [v'|] eqn:E; [|discriminate].
  intros [= <-]. exists items. split; [reflexivity|exact E].
Qed.

Lemma as_path_Done (v : value) (s : str) : as_path v = Done s -> v = VStr s.
Proof. destruct v; try discriminate. intros [= <-]. reflexivity. Qed.

Lemma init_check_files_Ok (self : solver) (w w' : world) :
  init_check_files self w = (w', Ok tt) ->
  forall file, In file files -> is_Some (lookup_file w (path_to_base_dir self) file).
Proof.
  unfold init_check_files. rewrite check_files_eq.
  destruct (find _ files) eqn:Hfind; [discriminate|].
  intros _ file Hin. pose proof (find_none _ _ Hfind file Hin) as Hfound.
  apply negb_false_iff, bool_decide_eq_true in Hfound. exact Hfound.
Qed.

(** X15.  When [__init__] returns, both solver paths can be executed,
    the four reference files exist, every key of [info.solver] is a
    registered one, and the sections [post], [config] and [reference] are
    all there, although the first two only hold keys with defaults; the
    flag is the configured value or [False]. *)
Theorem init_establishes (info_s : list (str * entry)) (root proc : str)
    (w : world) (self : solver) :
  __init__ X_OK expanduser PATH info_s root proc w = Done self ->
  X_OK (path_to_first_solver self) = true
  /\ X_OK (path_to_second_solver self) = true
  /\ (forall file, In file files ->
                   is_Some (lookup_file w (path_to_base_dir self) file))
  /\ root_dir self = root /\ proc_dir self = proc
  /\ forallb section_ok info_s = true
  /\ (exists post, dict_get (lit "post") info_s = Some (Table post)
                   /\ remove_work_dir self
                      = default (VBool false) (dict_get (lit "remove_work_dir") post))
  /\ (exists config, dict_get (lit "config") info_s = Some (Table config))
  /\ (exists reference,
        dict_get (lit "reference") info_s = Some (Table reference)
        /\ dict_get (lit "path_to_base_dir") reference
           = Some (VStr (path_to_base_dir self))).
Proof.
  unfold __init__, mbind, outcome_bind.
  destruct (section_get info_s (lit "post") _ _) as [remove|] eqn:Hpost; [|discriminate].
  pose proof (check_sections_cases info_s) as Hkeys.
  destruct (check_sections info_s) as [[]|]; [|discriminate].
  destruct (section_get info_s (lit "config") (lit "path_to_first_solver") _)
    as [p1|] eqn:Hp1; [|discriminate].
  destruct (as_path p1) as [p1s|]; [|discriminate].
  destruct (locate X_OK expanduser PATH root p1s) as [first|] eqn:Hfirst; [|discriminate].
  destruct (section_get info_s (lit "config") (lit "path_to_second_solver") _)
    as [p2|]; [|discriminate].
  destruct (as_path p2) as [p2s|]; [|discriminate].
  destruct (locate X_OK expanduser PATH root p2s) as [second|] eqn:Hsecond; [|discriminate].
  destruct (section_item info_s (lit "reference") _) as [base|] eqn:Hbase; [|discriminate].
  destruct (as_path base) as [bases|] eqn:Hbases; [|discriminate].
  destruct (init_check_files _ w) as [w' [[]|e]] eqn:Hfiles; [|discriminate].
  intros [= <-]. cbn [path_to_first_solver path_to_second_solver path_to_base_dir
                       root_dir proc_dir remove_work_dir].
  apply locate_executable in Hfirst, Hsecond.
  apply section_get_Done in Hpost as [post [Hpost ->]].
  apply section_get_Done in Hp1 as [config [Hconfig _]].
  apply section_item_Done in Hbase as [reference [Href Hbase]].
  apply as_path_Done in Hbases. subst base.
  repeat split; try assumption.
  - exact (init_check_files_Ok _ w w' Hfiles).
  - exists post. split; [exact Hpost|reflexivity].
  - exists config. exact Hconfig.
  - exists reference. split; assumption.
Qed.

End InitProperties.

Example init_sample :
  __init__ SampleInit.X_OK SampleInit.expanduser SampleInit.PATH SampleInit.info_s
    (lit "/root") (lit "/proc") (Sample.at_root Sample.reference)
  = Done SampleInit.self.
Proof. reflexivity. Qed.

(** ** The further properties on the samples *)

Lemma get_results_first_label_witness :
  get_results (Sample.solver_with (VBool false)) Sample.marker_and_label
  = (Sample.marker_and_label, Ok (FFin false 1234 10000)).
Proof.
  refine (get_results_first_label (Sample.solver_with (VBool false))
            Sample.marker_and_label Sample.wd Sample.summary_ok
            [lit "ITERATION 12" ++ [PyStr.LF]] []
            (lit " R-FACTOR = 0.1234" ++ [PyStr.LF])
            (lit " 0.1234" ++ [PyStr.LF]) (FFin false 1234 10000)
            eq_refl _ _ _ _ _ _).
  - reflexivity.
  - reflexivity.
  - vm_compute. repeat constructor.
  - reflexivity.
  - reflexivity.
  - vm_compute. reflexivity.
Defined.

Lemma get_results_scan_error_witness :
  get_results (Sample.solver_with (VStr (lit "true"))) More.no_equals
  = (More.no_equals, Raise IndexError)
  /\ get_results (Sample.solver_with (VStr (lit "true"))) More.not_a_number
     = (More.not_a_number, Raise ValueError).
Proof.
  split.
  - refine (proj1 (get_results_scan_error (Sample.solver_with (VStr (lit "true")))
                     More.no_equals Sample.wd (lit "R-FACTOR 0.1234" ++ [PyStr.LF])
                     [] [] (lit "R-FACTOR 0.1234" ++ [PyStr.LF])
                     eq_refl _ _ _ _) _); try reflexivity. constructor.
  - refine (proj2 (get_results_scan_error (Sample.solver_with (VStr (lit "true")))
                     More.not_a_number Sample.wd (lit "R-FACTOR = n/a" ++ [PyStr.LF])
                     [] [] (lit "R-FACTOR = n/a" ++ [PyStr.LF])
                     eq_refl _ _ _ _) (lit " n/a" ++ [PyStr.LF]) _ _);
      try reflexivity. constructor.
Defined.

Example get_results_padded_number :
  get_results (Sample.solver_with (VBool false)) More.padded_number
  = (More.padded_number, Ok (FFin false 5 10)).
Proof. reflexivity. Qed.

Lemma get_results_frame_witness :
  dirs (fst (get_results (Sample.solver_with (VStr (lit "true"))) More.with_plots))
    !! Sample.wd = None
  /\ dirs (fst (get_results (Sample.solver_with (VStr (lit "true"))) More.with_plots))
       !! More.plots = None
  /\ dirs (fst (get_results (Sample.solver_with (VStr (lit "true"))) More.with_plots))
       !! More.neighbour = Some ∅
  /\ dirs (fst (get_results (Sample.solver_with (VStr (lit "true"))) More.with_plots))
       !! Sample.proc = Some ∅.
Proof.
  pose proof (get_results_frame (Sample.solver_with (VStr (lit "true")))
                More.with_plots Sample.wd eq_refl) as [_ [Hgone [Hother _]]].
  split; [|split; [|split]].
  - exact (Hgone (FFin false 1234 10000) Sample.wd eq_refl eq_refl eq_refl).
  - exact (Hgone (FFin false 1234 10000) More.plots eq_refl eq_refl eq_refl).
  - rewrite (Hother More.neighbour eq_refl). reflexivity.
  - rewrite (Hother Sample.proc eq_refl). reflexivity.
Defined.


Lemma prepare_frame_witness :
  dirs (fst (prepare Sample.self Sample.msg (Sample.at_proc Sample.reference)))
    !! Sample.ref = Some Sample.reference.
Proof.
  rewrite (prepare_frame Sample.self Sample.msg (Sample.at_proc Sample.reference)
             Sample.ref eq_refl (ex_intro _ ∅ eq_refl) eq_refl eq_refl).
  - reflexivity.
  - intros E. vm_compute in E. discriminate E.
Defined.

Lemma prepare_without_reference_witness :
  snd (prepare Sample.self Sample.msg More.no_reference) = Raise DistutilsFileError
  /\ cwd (fst (prepare Sample.self Sample.msg More.no_reference)) = Sample.proc.
Proof.
  destruct (prepare_without_reference Sample.self Sample.msg More.no_reference
              eq_refl (ex_intro _ ∅ eq_refl) eq_refl) as [Hraise [Hcwd _]].
  - intros E. vm_compute in E. discriminate E.
  - split; [exact Hraise|exact Hcwd].
Defined.

Lemma write_fit_file_short_vector_witness :
  _write_fit_file [FFin false 3 2] (Sample.inside Sample.template)
  = (Sample.inside (lit "   1.5000  opt0001   DISPLACEMENTS" ++ [PyStr.LF]), Ok tt)
  /\ has_placeholder (lit "   1.5000  opt0001   DISPLACEMENTS" ++ [PyStr.LF]) = true.
Proof.
  destruct (write_fit_file_short_vector [FFin false 3 2] Sample.head Sample.rest
              (Sample.inside Sample.template)
              {[ lit "tleed5.i" := Sample.template ]} Sample.template 1%nat)
    as [Hrun [_ Hleft]]; [reflexivity..| |cbn; lia|].
  - right. left. reflexivity.
  - split; [exact Hrun|exact Hleft].
Defined.

Lemma write_fit_file_no_tokens_witness :
  _write_fit_file (x Sample.msg) (Sample.inside More.plain_text)
  = (Sample.inside More.plain_text, Ok tt).
Proof.
  exact (write_fit_file_no_tokens (x Sample.msg) (Sample.inside More.plain_text)
           {[ lit "tleed5.i" := More.plain_text ]} More.plain_text
           eq_refl eq_refl eq_refl).
Defined.

Lemma folder_name_length_witness : length (folder_name 3 7) = 20%nat.
Proof.
  apply (proj2 (folder_name_length 3 7 ltac:(lia) ltac:(lia))). lia.
Defined.

Lemma run_both_succeed_witness :
  snd (run (Sample.host 0 0) Sample.self Sample.empty_workspace) = Ok tt
  /\ stdout (fst (run (Sample.host 0 0) Sample.self Sample.empty_workspace)) = [].
Proof.
  destruct (run_both_succeed (Sample.host 0 0) Sample.self Sample.empty_workspace
              Sample.wd ∅ {[ lit "tleed.o" := lit "amplitudes" ]}
              {[ lit "tleed.o" := lit "amplitudes"; lit "search.s" := Sample.summary_ok ]}
              (Sample.writes (lit "tleed.o") (lit "amplitudes") 0)
              (Sample.writes (lit "search.s") Sample.summary_ok 0)
              eq_refl eq_refl eq_refl eq_refl eq_refl eq_refl)
    as [Hok [_ [Hout _]]].
  split; [exact Hok|exact Hout].
Defined.

Lemma locate_with_directory_witness :
  locate SampleInit.X_OK SampleInit.expanduser None (lit "/root") (lit "bin/satl1.exe")
  = Done (lit "/root/bin/satl1.exe").
Proof.
  exact (eq_trans
           (locate_with_directory SampleInit.X_OK SampleInit.expanduser None
              (lit "/root") (lit "bin/satl1.exe") eq_refl)
           eq_refl).
Defined.

Lemma locate_bare_name_witness :
  locate SampleInit.X_OK SampleInit.expanduser SampleInit.PATH (lit "/root")
    (lit "satl2.exe")
  = Done (lit "/usr/local/bin/satl2.exe").
Proof.
  exact (eq_trans
           (locate_bare_name SampleInit.X_OK SampleInit.expanduser SampleInit.PATH
              (lit "/root") (lit "satl2.exe") eq_refl)
           eq_refl).
Defined.

Lemma init_establishes_witness :
  SampleInit.X_OK (path_to_first_solver SampleInit.self) = true
  /\ SampleInit.X_OK (path_to_second_solver SampleInit.self) = true.
Proof.
  destruct (init_establishes SampleInit.X_OK SampleInit.expanduser SampleInit.PATH
              SampleInit.info_s (lit "/root") (lit "/proc")
              (Sample.at_root Sample.reference) SampleInit.self eq_refl)
    as [H1 [H2 _]].
  split; [exact H1|exact H2].
Defined.

Lemma token_prefix_free_witness :
  length (token 1) = 7%nat
  /\ PyStr.startswith (token 1) (token 12 ++ lit " x") = false.
Proof.
  destruct (token_prefix_free 1 12 (lit " x") ltac:(cbn; lia) ltac:(cbn; lia))
    as [Hlen Hiff].
  split; [exact Hlen|].
  destruct (PyStr.startswith (token 1) (token 12 ++ lit " x")) eqn:E; [|reflexivity].
  discriminate (proj1 Hiff eq_refl).
Defined.

